(** * co3d/challenge/utils.py: matching of result files and averaging of metrics

    A shallow embedding of the evaluation utilities of the CO3D challenge:
    [get_co3d_task_from_subset_name], [check_user_submission_file_paths],
    [get_result_directory_file_names] and [evaluate_file_folders].

    Conventions of the embedding.
    - A Python [str] is a [string]; a character is a code point below 256.
    - A Python [dict] is an association list in insertion order ([Py.dict]).
    - A raising function returns [Raise e]; a returning one [Ok v].
    - The file system is read through [filesystem]: what [os.scandir] lists
      for a directory path. *)

From Stdlib Require Import List String Ascii Bool Arith Lia Permutation.
From Stdlib Require ZArith QArith.
From Stdlib Require Import Sorted.
Import ListNotations.
Open Scope list_scope.
Open Scope string_scope.

(* ================================================================== *)
(** ** Python values: exceptions, strings, dictionaries *)

Module Py.

(** The exceptions that the embedded code can raise. [ValueError] carries
    its message, [KeyError] the missing key. *)
Inductive exn : Type :=
| ValueError (msg : string)
| KeyError (key : string)
| ZeroDivisionError
| OSError (msg : string).

Inductive result (A : Type) : Type :=
| Ok (a : A)
| Raise (e : exn).
Arguments Ok {A} a.
Arguments Raise {A} e.

Definition bind {A B} (r : result A) (k : A -> result B) : result B :=
  match r with
  | Ok a => k a
  | Raise e => Raise e
  end.

(** [[f(x) for x in l]] where [f] may raise: left to right, the first
    exception wins. *)
Fixpoint mapM {A B} (f : A -> result B) (l : list A) : result (list B) :=
  match l with
  | [] => Ok []
  | x :: l' =>
      bind (f x) (fun y => bind (mapM f l') (fun ys => Ok (y :: ys)))
  end.

(** *** str *)

(** The one-character string ["\n"]. *)
Definition nl : string := String (ascii_of_nat 10) EmptyString.

(** [s.startswith(p)] *)
Definition startswith (s p : string) : bool := String.prefix p s.

(** [s.endswith(suf)]: some tail of [s] is [suf]. *)
Fixpoint endswith (s suf : string) : bool :=
  (suf =? s)
  || match s with
     | EmptyString => false
     | String _ s' => endswith s' suf
     end.

(** [s[:-n]] for a positive [n]: everything but the last [n] characters,
    the empty string when [s] is shorter than [n]. *)
Definition slice_to_neg (n : nat) (s : string) : string :=
  substring 0 (String.length s - n) s.

(** [c in s] for a one-character [c]. *)
Fixpoint contains (c : ascii) (s : string) : bool :=
  match s with
  | EmptyString => false
  | String d s' => Ascii.eqb c d || contains c s'
  end.

(** [sep.join(l)] *)
Definition join (sep : string) (l : list string) : string :=
  String.concat sep l.

(** [sorted(l)] on strings: code-point lexicographic order. Python's sort
    is stable and the order is total, so the result does not depend on the
    algorithm; insertion sort is used here. *)
Fixpoint insert_sorted (x : string) (l : list string) : list string :=
  match l with
  | [] => [x]
  | y :: l' => if String.leb x y then x :: l else y :: insert_sorted x l'
  end.

Fixpoint sorted (l : list string) : list string :=
  match l with
  | [] => []
  | x :: l' => insert_sorted x (sorted l')
  end.

(** [set(l)]: the distinct elements. The iteration order of a Python set is
    unspecified; every use below sorts the set before iterating. *)
Definition set (l : list string) : list string := nodup string_dec l.

(** *** repr(str) and str(list)

    [repr] of a [str] as CPython's [unicode_repr] computes it, for code
    points below 256: single quotes unless the string has a single quote
    and no double quote; backslash and the chosen quote are escaped; tab,
    newline and carriage return get their letter escapes; every other
    non-printable code point is written [\xhh]. *)

Definition hexdigit (n : nat) : ascii :=
  match String.get n "0123456789abcdef" with
  | Some c => c
  | None => "0"%char
  end.

Definition isprintable (n : nat) : bool :=
  (((32 <=? n) && (n <? 127)) || ((161 <=? n) && negb (n =? 173)))%nat.

Definition repr_char (quote : ascii) (c : ascii) : string :=
  let n := nat_of_ascii c in
  if Ascii.eqb c quote || Ascii.eqb c "\"%char then String "\"%char (String c EmptyString)
  else if (n =? 9)%nat then "\t"
  else if (n =? 10)%nat then "\n"
  else if (n =? 13)%nat then "\r"
  else if isprintable n then String c EmptyString
  else String "\"%char (String "x"%char
         (String (hexdigit (n / 16)) (String (hexdigit (n mod 16)) EmptyString))).

Fixpoint repr_body (quote : ascii) (s : string) : string :=
  match s with
  | EmptyString => EmptyString
  | String c s' => repr_char quote c ++ repr_body quote s'
  end.

Definition repr (s : string) : string :=
  let quote :=
    if contains "'"%char s && negb (contains (ascii_of_nat 34) s)
    then ascii_of_nat 34 else "'"%char in
  String quote (repr_body quote s ++ String quote EmptyString).

(** [str(l)] for a list of [str]. *)
Definition str_list (l : list string) : string :=
  "[" ++ join ", " (map repr l) ++ "]".

(** *** dict, in insertion order *)

Definition dict (V : Type) : Type := list (string * V).

Fixpoint dict_get {V} (d : dict V) (k : string) : option V :=
  match d with
  | [] => None
  | (k', v) :: d' => if k' =? k then Some v else dict_get d' k
  end.

(** [k in d] *)
Definition dict_contains {V} (d : dict V) (k : string) : bool :=
  match dict_get d k with
  | Some _ => true
  | None => false
  end.

(** [d[k]] *)
Definition dict_getitem {V} (d : dict V) (k : string) : result V :=
  match dict_get d k with
  | Some v => Ok v
  | None => Raise (KeyError k)
  end.

(** [d[k] = v]: an existing key keeps its place, a new one goes last. *)
Fixpoint dict_set {V} (d : dict V) (k : string) (v : V) : dict V :=
  match d with
  | [] => [(k, v)]
  | (k', v') :: d' =>
      if k' =? k then (k', v) :: d' else (k', v') :: dict_set d' k v
  end.

(** [list(d)], [d.keys()], iteration over [d] *)
Definition dict_keys {V} (d : dict V) : list string := map fst d.

(** [{key(x): val(x) for x in l}] *)
Definition dict_comprehension {A V} (kv : A -> string * V) (l : list A)
  : dict V :=
  fold_left (fun d x => dict_set d (fst (kv x)) (snd (kv x))) l [].

End Py.

Import Py.

Notation "x <- r ;; k" := (Py.bind r (fun x => k))
  (at level 61, r at next level, right associativity).

(* ================================================================== *)
(** ** posixpath *)

Module PosixPath.

(** [p[:i], p[i:]] for [i = p.rfind('/') + 1]: the part up to and including
    the last slash, and the part after it. *)
Fixpoint rsplit_slash (p : string) : string * string :=
  match p with
  | EmptyString => (EmptyString, EmptyString)
  | String c p' =>
      match rsplit_slash p' with
      | (EmptyString, t) =>
          if Ascii.eqb c "/"%char then ("/", t) else (EmptyString, String c t)
      | (h, t) => (String c h, t)
      end
  end.

(** [s.rstrip('/')] *)
Fixpoint rstrip_slash (s : string) : string :=
  match s with
  | EmptyString => EmptyString
  | String c s' =>
      match rstrip_slash s' with
      | EmptyString =>
          if Ascii.eqb c "/"%char then EmptyString else String c EmptyString
      | r => String c r
      end
  end.

(** [s == '/' * len(s)] *)
Fixpoint all_slashes (s : string) : bool :=
  match s with
  | EmptyString => true
  | String c s' => Ascii.eqb c "/"%char && all_slashes s'
  end.

(** [os.path.split(p)] *)
Definition split (p : string) : string * string :=
  let (head, tail) := rsplit_slash p in
  ((if all_slashes head then head else rstrip_slash head), tail).

(** [os.path.join(a, b)] *)
Definition join (a b : string) : string :=
  if startswith b "/" then b
  else if (a =? EmptyString) || endswith a "/" then a ++ b
  else a ++ "/" ++ b.

End PosixPath.

(* ================================================================== *)
(** ** glob and fnmatch *)

Module Glob.

(** What the code can observe of the file system: for a directory path the
    names [os.scandir] lists there (none when the directory cannot be
    read; the empty path stands for the current directory), and, for a
    directory pattern with wildcards, the directories that [glob] expands
    it to. The file system does not change during a call. Paths are those
    the system accepts: for a path with a NUL character [os.scandir] raises
    a [ValueError] that [glob] does not catch, and no listing is defined
    for it; the properties that speak of every outcome of a call assume
    [nul_free]. *)
Record filesystem : Type := {
  listdir : string -> list string;
  expand_dirs : string -> list string
}.

(** [glob.has_magic]: one of [*], [?], [[] occurs. *)
Definition has_magic (s : string) : bool :=
  contains "*"%char s || contains "?"%char s || contains "["%char s.

(** [glob._ishidden] *)
Definition ishidden (name : string) : bool := startswith name ".".

(** [fnmatch] on POSIX for a pattern built from [*], [?] and literal
    characters (the patterns of this program have no bracket class). *)
Fixpoint fnmatch (pat name : string) {struct pat} : bool :=
  match pat with
  | EmptyString =>
      match name with EmptyString => true | _ => false end
  | String c pat' =>
      if Ascii.eqb c "*"%char then
        (fix star (name : string) : bool :=
           fnmatch pat' name
           || match name with
              | EmptyString => false
              | String _ name' => star name'
              end) name
      else
        match name with
        | EmptyString => false
        | String d name' =>
            (Ascii.eqb c "?"%char || Ascii.eqb c d) && fnmatch pat' name'
        end
  end.

(** [glob._glob1(dirname, pattern)]: the names listed in [dirname] that
    match, dot-files left out unless the pattern itself starts with a dot. *)
Definition glob1 (fs : filesystem) (dirname pattern : string) : list string :=
  let names := listdir fs dirname in
  let names :=
    if ishidden pattern then names
    else filter (fun x => negb (ishidden x)) names in
  filter (fnmatch pattern) names.

(** [glob.glob(pathname)] for a [pathname] whose last component has a
    wildcard and is not [**] (every call of this program: the last
    component is [*_<type>.png]). With no directory part the bare names
    are returned; otherwise each match is joined to its directory. *)
Definition glob (fs : filesystem) (pathname : string) : list string :=
  let (dirname, basename) := PosixPath.split pathname in
  if dirname =? EmptyString then glob1 fs dirname basename
  else
    let dirs :=
      if negb (dirname =? pathname) && has_magic dirname
      then expand_dirs fs dirname
      else [dirname] in
    flat_map
      (fun d => map (PosixPath.join d) (glob1 fs d basename)) dirs.

End Glob.

Import Glob.

(* ================================================================== *)
(** ** co3d.challenge.utils *)

(** [CO3DTask] of [data_types]: the two members the code names. *)
Inductive CO3DTask : Type :=
| MANY_VIEW
| FEW_VIEW.

Definition get_co3d_task_from_subset_name (subset_name : string)
  : result CO3DTask :=
  if startswith subset_name "manyview" then Ok MANY_VIEW
  else if startswith subset_name "fewview" then Ok FEW_VIEW
  else Raise (ValueError ("Invalid subset name " ++ subset_name ++ "!")).

(** [check_user_submission_file_paths]: returns [None] ([tt]) or raises. *)
Definition check_user_submission_file_paths
  (ground_truth_files user_submission_files : dict string) : result unit :=
  let missing_gt_examples :=
    filter (fun gt_example_name =>
              negb (dict_contains user_submission_files gt_example_name))
           (dict_keys ground_truth_files) in
  if (0 <? List.length missing_gt_examples)%nat then
    Raise (ValueError ("There are missing evaluation examples: "
                       ++ str_list missing_gt_examples))
  else
    let additional_user_examples :=
      filter (fun user_example =>
                negb (dict_contains ground_truth_files user_example))
             (dict_keys user_submission_files) in
    if (0 <? List.length additional_user_examples)%nat then
      Raise (ValueError ("Unexpected submitted evaluation examples "
                         ++ str_list additional_user_examples))
    else Ok tt.


(** The tuple [("image", "mask", "depth")] that every loop of
    [get_result_directory_file_names] runs over. *)
Inductive result_type : Type :=
| Image
| Mask
| Depth.

Definition result_types : list result_type := [Image; Mask; Depth].

Definition type_name (t : result_type) : string :=
  match t with
  | Image => "image"
  | Mask => "mask"
  | Depth => "depth"
  end.

Definition is_mask (t : result_type) : bool :=
  type_name t =? "mask".

(** [postfix = f"_{result_type}.png"] *)
Definition postfix (t : result_type) : string :=
  "_" ++ type_name t ++ ".png".

(** [result_type_files[result_type]] after the first loop: the dictionary
    from example name to matching file. *)
Definition result_type_files
  (fs : filesystem) (result_dir : string) (has_depth_masks : bool)
  (t : result_type) : dict string :=
  let matching_files :=
    sorted (glob fs (PosixPath.join result_dir ("*" ++ postfix t))) in
  let matching_files :=
    if has_depth_masks && is_mask t
    then filter (fun f => negb (endswith f "_depth_mask.png")) matching_files
    else matching_files in
  dict_comprehension
    (fun f =>
       (slice_to_neg (String.length (postfix t)) (snd (PosixPath.split f)), f))
    matching_files.

(** [example_names]: the sorted distinct keys of the three dictionaries. *)
Definition example_names (rtf : result_type -> dict string) : list string :=
  sorted (set (flat_map (fun t => dict_keys (rtf t)) result_types)).

(** [missing_examples[example_name].append(result_type)] on a
    [defaultdict(list)]: a new key enters with the one-element list. *)
Definition defaultdict_append
  (d : dict (list result_type)) (k : string) (t : result_type)
  : dict (list result_type) :=
  match dict_get d k with
  | Some v => dict_set d k (v ++ [t])%list
  | None => dict_set d k [t]
  end.

Definition missing_examples
  (rtf : result_type -> dict string) (names : list string)
  : dict (list result_type) :=
  fold_left
    (fun d example_name =>
       fold_left
         (fun d t =>
            if dict_contains (rtf t) example_name then d
            else defaultdict_append d example_name t)
         result_types d)
    names [].

(** One line [f"   {k} missing {str(v)}"] of the error message. *)
Definition missing_line (kv : string * list result_type) : string :=
  "   " ++ fst kv ++ " missing " ++ str_list (map type_name (snd kv)).

Definition incomplete_message (missing : dict (list result_type)) : string :=
  ("Some evaluation examples are incomplete:" ++ nl)
  ++ join nl (map missing_line missing).

Definition get_result_directory_file_names
  (fs : filesystem) (result_dir : string) (has_depth_masks : bool)
  : result (dict string) :=
  let rtf := result_type_files fs result_dir has_depth_masks in
  let names := example_names rtf in
  let missing := missing_examples rtf names in
  if (0 <? List.length missing)%nat then
    Raise (ValueError (incomplete_message missing))
  else
    items <- mapM (fun example_name =>
                     f <- dict_getitem (rtf Image) example_name ;;
                     Ok (example_name,
                         slice_to_neg (String.length "_image.png") f))
                  names ;;
    Ok (dict_comprehension (fun kv => kv) items).

(** ** evaluate_file_folders

    [eval_one], [EVAL_METRIC_NAMES] (module [metric_utils]) and
    [load_rgbda_frame] (module [io]) are imported by the code and kept as
    parameters, as is the arithmetic of the metric values: [num0] is the
    integer [0] that [sum] starts from, [num_add] is [+] and
    [num_div x n] is [x / n] for a non-zero integer [n]. *)
Section Evaluate.

Variable num : Type.
Variable num0 : num.
Variable num_add : num -> num -> num.
Variable num_div : num -> nat -> num.

Variable frame : Type.
Variable load_rgbda_frame : string -> result frame.
Variable eval_one : frame -> frame -> result (dict num).
Variable EVAL_METRIC_NAMES : list string.

(** [x / n]: division by zero raises. *)
Definition truediv (x : num) (n : nat) : result num :=
  match n with
  | O => Raise ZeroDivisionError
  | S _ => Ok (num_div x n)
  end.

(** [sum(r[metric] for r in per_example_results)] *)
Definition sum_metric (metric : string) (per_example_results : list (dict num))
  : result num :=
  fold_left
    (fun acc r => a <- acc ;; v <- dict_getitem r metric ;; Ok (num_add a v))
    per_example_results (Ok num0).

(** The body of the first comprehension: the metrics of one example. *)
Definition eval_example
  (ground_truth_files user_submission_files : dict string)
  (gt_example : string) : result (dict num) :=
  gt_path <- dict_getitem ground_truth_files gt_example ;;
  gt <- load_rgbda_frame gt_path ;;
  pred_path <- dict_getitem user_submission_files gt_example ;;
  pred <- load_rgbda_frame pred_path ;;
  eval_one gt pred.

(** The second comprehension: the average of each metric. *)
Definition average_metrics (per_example_results : list (dict num))
  : result (dict num) :=
  metrics <-
    mapM (fun metric =>
            s <- sum_metric metric per_example_results ;;
            m <- truediv s (List.length per_example_results) ;;
            Ok (metric, m))
         EVAL_METRIC_NAMES ;;
  Ok (dict_comprehension (fun kv => kv) metrics).

Definition evaluate_file_folders
  (fs : filesystem) (pred_folder gt_folder : string)
  : result (dict num * list (dict num)) :=
  user_submission_files <- get_result_directory_file_names fs pred_folder false ;;
  ground_truth_files <- get_result_directory_file_names fs gt_folder true ;;
  _ <- check_user_submission_file_paths ground_truth_files user_submission_files ;;
  per_example_results <-
    mapM (eval_example ground_truth_files user_submission_files)
         (dict_keys ground_truth_files) ;;
  result <- average_metrics per_example_results ;;
  Ok (result, per_example_results).

(** The arithmetic mean of a list of values: their sum, taken from [0] in
    the order of the list, divided by their number. *)
Definition arithmetic_mean (values : list num) : num :=
  num_div (fold_left num_add values num0) (List.length values).

End Evaluate.


(** ** get_co3d_sequence_set_from_subset_name

    [subset_name.split("_")[1]] handed to the enumeration [CO3DSequenceSet]
    of [data_types]. The enumeration is not part of these files: its type
    and its lookup by value (which raises on a value of no member) are
    parameters. *)

(** [s.split(sep)] for a one-character separator: the fields between the
    separators, [[""]] for the empty string. *)
Fixpoint str_split (s : string) (sep : ascii) : list string :=
  match s with
  | EmptyString => [EmptyString]
  | String c s' =>
      if Ascii.eqb c sep then EmptyString :: str_split s' sep
      else match str_split s' sep with
           | f :: fs => String c f :: fs
           | [] => [String c EmptyString]
           end
  end.

(** What a call does when it can also raise [IndexError]. *)
Inductive outcome (A : Type) : Type :=
| Returned (a : A)
| Raised (e : exn)
| IndexError.
Arguments Returned {A} a.
Arguments Raised {A} e.
Arguments IndexError {A}.

Section SequenceSet.

Variable CO3DSequenceSet : Type.
Variable CO3DSequenceSet_of_value : string -> result CO3DSequenceSet.

Definition get_co3d_sequence_set_from_subset_name (subset_name : string)
  : outcome CO3DSequenceSet :=
  match nth_error (str_split subset_name "_"%char) 1 with
  | None => IndexError
  | Some value =>
      match CO3DSequenceSet_of_value value with
      | Ok sequence_set => Returned sequence_set
      | Raise e => Raised e
      end
  end.

End SequenceSet.

(* ================================================================== *)
(** ** Notions used to state the properties *)

(** A name [os.scandir] can list: no slash inside. *)
Definition slash_free (s : string) : bool := negb (contains "/"%char s).

(** What [os.path.join(a, b)] puts before a [b] that does not start with a
    slash. *)
Definition join_prefix (a : string) : string :=
  if (a =? EmptyString) || endswith a "/" then a else a ++ "/".

(** A pattern with no wildcard. *)
Definition literal (pat : string) : bool :=
  negb (contains "*"%char pat) && negb (contains "?"%char pat).

(** The directory [glob] lists for [result_dir]: the head of the split of
    [os.path.join(result_dir, pattern)]. *)
Definition dirname_of (result_dir : string) : string :=
  fst (PosixPath.split (PosixPath.join result_dir "*")).

(** The path [glob] returns for the entry [name] of that directory. *)
Definition glob_path (result_dir name : string) : string :=
  let d := dirname_of result_dir in
  if d =? EmptyString then name else PosixPath.join d name.

(** The entries of the result directory. *)
Definition entries (fs : filesystem) (result_dir : string) : list string :=
  listdir fs (dirname_of result_dir).

(** The directory has the file [<n>_<t>.png] of the naming convention. *)
Definition has_file (fs : filesystem) (result_dir : string)
  (n : string) (t : result_type) : Prop :=
  In (n ++ postfix t) (entries fs result_dir).

(** The file names the matching of result type [t] keeps: not a dot-file
    (which [glob] does not list for a pattern starting with [*]), ending in
    the postfix and, when depth masks are announced, not a depth mask taken
    for a mask. *)
Definition matched (has_depth_masks : bool) (t : result_type) (file : string)
  : bool :=
  negb (ishidden file)
  && endswith file (postfix t)
  && negb (has_depth_masks && is_mask t && endswith file "_depth_mask.png").

(** The directory has the file [<n>_<t>.png] and the matching keeps it. *)
Definition has_matched_file (fs : filesystem) (result_dir : string)
  (has_depth_masks : bool) (n : string) (t : result_type) : Prop :=
  has_file fs result_dir n t /\ matched has_depth_masks t (n ++ postfix t) = true.

(** Every entry of the result directory is a plain name. *)
Definition plain_entries (fs : filesystem) (result_dir : string) : Prop :=
  forall x, In x (entries fs result_dir) -> slash_free x = true.

(** The result types for which [example_name] has no entry. *)
Definition missing_types (rtf : result_type -> dict string)
  (example_name : string) : list result_type :=
  filter (fun t => negb (dict_contains (rtf t) example_name)) result_types.

(** The incomplete examples among [names], each with its missing types. *)
Definition incomplete_items (rtf : result_type -> dict string)
  (names : list string) : dict (list result_type) :=
  flat_map
    (fun n =>
       match missing_types rtf n with
       | [] => []
       | v => [(n, v)]
       end)
    names.

(** An example some of whose files the matching keeps, but not all three. *)
Definition incomplete_example (fs : filesystem) (result_dir : string)
  (has_depth_masks : bool) (n : string) : Prop :=
  (exists t, has_matched_file fs result_dir has_depth_masks n t)
  /\ (exists t, ~ has_matched_file fs result_dir has_depth_masks n t).

(** Every example of the directory has its three files. *)
Definition complete_directory (fs : filesystem) (result_dir : string) : Prop :=
  forall n t, has_file fs result_dir n t ->
              forall t', has_file fs result_dir n t'.

(** A file system given by the listing of each of its directories. *)
Definition fs_of (dirs : dict (list string)) : filesystem :=
  {| listdir := fun d => match dict_get dirs d with
                         | Some l => l
                         | None => []
                         end;
     expand_dirs := fun _ => [] |}.

(** A ground-truth folder as the challenge lays it out: two examples, each
    with its depth mask, and a dot-file. *)
Definition gt_listing : list string :=
  ["b_mask.png"; "a_image.png"; "a_depth_mask.png"; "b_depth.png";
   "a_mask.png"; "b_image.png"; "._a_image.png"; "a_depth.png";
   "b_depth_mask.png"].

(** A prediction folder with the same two examples, and one where the
    example [a] has lost its mask. *)
Definition pred_listing : list string :=
  ["a_image.png"; "a_mask.png"; "a_depth.png";
   "b_image.png"; "b_mask.png"; "b_depth.png"].

Definition pred_listing_incomplete : list string :=
  ["b_depth.png"; "a_image.png"; "a_depth.png"; "b_image.png"; "b_mask.png";
   "c_mask.png"].

(** A two-example fixture with rational metric values: frames are stood
    for by their root paths, and the evaluation gives example [a] the
    values 1 and 1/2, example [b] the values 3 and 1/4. *)
Module Fixture.

Import ZArith QArith.

Definition zero : Q := Qmake 0 1.

Definition div_nat (x : Q) (n : nat) : Q :=
  Qdiv x (inject_Z (Z.of_nat n)).

Definition load (path : string) : result string := Ok path.

Definition eval (gt pred : string) : result (dict Q) :=
  if gt =? "gt/a"
  then Ok [("psnr", Qmake 1 1); ("iou", Qmake 1 2)]
  else Ok [("psnr", Qmake 3 1); ("iou", Qmake 1 4)].

Definition metric_names : list string := ["psnr"; "iou"].

Definition evaluate : filesystem -> string -> string
                      -> result (dict Q * list (dict Q)) :=
  evaluate_file_folders Q zero Qplus div_nat string load eval
    metric_names.

Definition folders : filesystem :=
  fs_of [("gt", gt_listing); ("pred", pred_listing);
         ("partial", ["b_image.png"; "b_mask.png"; "b_depth.png";
                      "c_image.png"; "c_mask.png"; "c_depth.png"]);
         ("empty", ["readme.txt"])].

(** The per-example results and the averages (2 and 3/8, unreduced). *)
Definition per_example_results : list (dict Q) :=
  [[("psnr", Qmake 1 1); ("iou", Qmake 1 2)];
   [("psnr", Qmake 3 1); ("iou", Qmake 1 4)]].

Definition averages : dict Q :=
  [("psnr", Qmake 4 2); ("iou", Qmake 6 16)].

End Fixture.

(** A directory entry that some matching can keep: not a dot-file, and
    ending in one of the three postfixes. *)
Definition result_file (x : string) : bool :=
  negb (ishidden x) && existsb (fun t => endswith x (postfix t)) result_types.

(** Lexicographic order on names, as [sorted] uses it. *)
Definition name_le (a b : string) : Prop := String.leb a b = true.



(** An empty directory whose name is a pattern, [run[1]], beside the
    directory [run1] that the pattern matches and that holds one image. *)
Definition wildcard_fs : filesystem :=
  {| listdir := fun d => if d =? "run1" then ["x_image.png"] else [];
     expand_dirs := fun d => if d =? "run[1]" then ["run1"] else [] |}.

(** Not a depth mask, by its name. *)
Definition no_depth_mask (x : string) : bool :=
  negb (endswith x "_depth_mask.png").

(** The example-name sets of two mappings are equal: S_gt = S_pred. *)
Definition same_keys {V W} (d : dict V) (d' : dict W) : Prop :=
  forall k, In k (dict_keys d) <-> In k (dict_keys d').

(** [k] is an example of [d] that [d'] lacks. *)
Definition only_in {V W} (d : dict V) (d' : dict W) (k : string) : Prop :=
  In k (dict_keys d) /\ ~ In k (dict_keys d').

(** [names] is the symmetric difference of the two example-name sets. *)
Definition symmetric_difference {V W}
  (d : dict V) (d' : dict W) (names : list string) : Prop :=
  forall k, In k names <-> only_in d d' k \/ only_in d' d k.

(** The message ends with the Python rendering of the list [names]. *)
Definition message_lists (msg : string) (names : list string) : Prop :=
  exists text, msg = text ++ str_list names.

(** The list [check_user_submission_file_paths] builds first: the examples
    of [gt] that are no key of [us] (the second list is the same with the
    arguments exchanged). *)
Definition missing_gt_examples (gt us : dict string) : list string :=
  filter (fun k => negb (dict_contains us k)) (dict_keys gt).

(* ================================================================== *)
(** * Properties *)

(** ** Strings *)

Section StringFacts.

Lemma append_assoc (a b c : string) : (a ++ b) ++ c = a ++ (b ++ c).
Proof. induction a; simpl; congruence. Qed.

Lemma length_append (a b : string) :
  String.length (a ++ b) = String.length a + String.length b.
Proof. induction a; simpl; congruence. Qed.

Lemma substring_prefix (p s : string) :
  substring 0 (String.length p) (p ++ s) = p.
Proof.
  induction p as [|c p IH]; simpl.
  - now destruct s.
  - now rewrite IH.
Qed.

Lemma slice_to_neg_app (p suf : string) :
  slice_to_neg (String.length suf) (p ++ suf) = p.
Proof.
  unfold slice_to_neg. rewrite length_append.
  replace (String.length p + String.length suf - String.length suf)
    with (String.length p) by lia.
  apply substring_prefix.
Qed.

Lemma endswith_nil (suf : string) :
  endswith EmptyString suf = (suf =? EmptyString).
Proof. unfold endswith. apply orb_false_r. Qed.

Lemma endswith_cons (c : ascii) (s suf : string) :
  endswith (String c s) suf = (suf =? String c s) || endswith s suf.
Proof. reflexivity. Qed.

Lemma endswith_refl (s : string) : endswith s s = true.
Proof.
  destruct s; [reflexivity|].
  rewrite endswith_cons, String.eqb_refl. reflexivity.
Qed.

Lemma endswith_app (p suf : string) : endswith (p ++ suf) suf = true.
Proof.
  induction p as [|c p IH].
  - apply endswith_refl.
  - change (String c p ++ suf) with (String c (p ++ suf)).
    rewrite endswith_cons, IH. apply orb_true_r.
Qed.

Lemma endswith_inv (s suf : string) :
  endswith s suf = true -> exists p, s = p ++ suf.
Proof.
  induction s as [|c s IH]; intros H.
  - rewrite endswith_nil in H. apply String.eqb_eq in H. subst.
    now exists EmptyString.
  - rewrite endswith_cons in H. apply orb_true_iff in H as [H|H].
    + apply String.eqb_eq in H. subst. now exists EmptyString.
    + destruct (IH H) as [p ->]. now exists (String c p).
Qed.

Lemma contains_app (c : ascii) (a b : string) :
  contains c (a ++ b) = contains c a || contains c b.
Proof.
  induction a as [|d a IH]; simpl; [reflexivity|].
  now rewrite IH, orb_assoc.
Qed.

Lemma startswith_cons_cons (a b : ascii) (p s : string) :
  startswith (String b s) (String a p)
  = if ascii_dec a b then startswith s p else false.
Proof. reflexivity. Qed.

End StringFacts.

(* ------------------------------------------------------------------ *)
(** ** get_co3d_task_from_subset_name *)

Lemma manyview_fewview_disjoint (s : string) :
  startswith s "manyview" = true -> startswith s "fewview" = false.
Proof.
  destruct s as [|c s]; [discriminate|].
  change "manyview" with (String "m" "anyview").
  change "fewview" with (String "f" "ewview").
  rewrite !startswith_cons_cons.
  destruct (ascii_dec "m" c) as [<-|]; intros H; [reflexivity|discriminate].
Qed.

(** C9. [get_co3d_task_from_subset_name] returns [MANY_VIEW] on every name
    that starts with "manyview", [FEW_VIEW] on every name that starts with
    "fewview", and raises a [ValueError] exactly on the names that start with
    neither. *)
Theorem get_co3d_task_from_subset_name_cases (subset_name : string) :
  (startswith subset_name "manyview" = true ->
   get_co3d_task_from_subset_name subset_name = Ok MANY_VIEW)
  /\ (startswith subset_name "fewview" = true ->
      get_co3d_task_from_subset_name subset_name = Ok FEW_VIEW)
  /\ ((exists msg,
          get_co3d_task_from_subset_name subset_name = Raise (ValueError msg))
      <-> (startswith subset_name "manyview" = false
           /\ startswith subset_name "fewview" = false)).
Proof.
  unfold get_co3d_task_from_subset_name.
  pose proof (manyview_fewview_disjoint subset_name) as D.
  destruct (startswith subset_name "manyview") eqn:M;
    destruct (startswith subset_name "fewview") eqn:F.
  - specialize (D eq_refl). discriminate.
  - split; [reflexivity|]. split; [discriminate|].
    split; [intros [msg E]; discriminate | intros [E _]; discriminate].
  - split; [discriminate|]. split; [reflexivity|].
    split; [intros [msg E]; discriminate | intros [_ E]; discriminate].
  - split; [discriminate|]. split; [discriminate|].
    split; [auto | intros _; eexists; reflexivity].
Qed.

(** C9 on three names: one of each kind. *)
Lemma subset_name_examples :
  get_co3d_task_from_subset_name "manyview_dev_0" = Ok MANY_VIEW
  /\ get_co3d_task_from_subset_name "fewview_test" = Ok FEW_VIEW
  /\ get_co3d_task_from_subset_name "Manyview"
     = Raise (ValueError "Invalid subset name Manyview!").
Proof. repeat split. Qed.

(* ------------------------------------------------------------------ *)
(** ** Dictionaries *)

Section DictFacts.

Context {V : Type}.
Implicit Types (d : dict V) (k : string) (v : V).

Lemma dict_get_None d k : dict_get d k = None <-> ~ In k (dict_keys d).
Proof.
  induction d as [|[k' v'] d IH]; simpl.
  - tauto.
  - destruct (String.eqb_spec k' k) as [->|N].
    + split; [discriminate | intros H; exfalso; apply H; now left].
    + rewrite IH. tauto.
Qed.

Lemma dict_contains_In d k :
  dict_contains d k = true <-> In k (dict_keys d).
Proof.
  unfold dict_contains. pose proof (dict_get_None d k) as H.
  destruct (dict_get d k).
  - split; [intros _|reflexivity].
    destruct (in_dec string_dec k (dict_keys d)) as [I|I]; [exact I|].
    apply H in I. discriminate.
  - split; [discriminate|]. intros I. exfalso. now apply (proj1 H).
Qed.

Lemma dict_contains_false d k :
  dict_contains d k = false <-> ~ In k (dict_keys d).
Proof.
  rewrite <- dict_contains_In. destruct (dict_contains d k); split; congruence.
Qed.

Lemma dict_getitem_Ok d k v :
  dict_getitem d k = Ok v <-> dict_get d k = Some v.
Proof.
  unfold dict_getitem. destruct (dict_get d k); split; congruence.
Qed.

Lemma dict_get_set d k v k' :
  dict_get (dict_set d k v) k' = if k =? k' then Some v else dict_get d k'.
Proof.
  induction d as [|[k0 v0] d IH]; simpl.
  - reflexivity.
  - destruct (String.eqb_spec k0 k) as [->|N]; simpl.
    + destruct (k =? k'); reflexivity.
    + rewrite IH. destruct (String.eqb_spec k0 k') as [->|N'].
      * apply String.eqb_neq in N. rewrite String.eqb_sym in N.
        now rewrite N.
      * reflexivity.
Qed.

Lemma dict_set_new d k v :
  dict_get d k = None -> dict_set d k v = (d ++ [(k, v)])%list.
Proof.
  induction d as [|[k0 v0] d IH]; simpl; [reflexivity|].
  destruct (k0 =? k); [discriminate|]. intros H. now rewrite IH.
Qed.

Lemma dict_get_snoc d k v :
  dict_get d k = None -> dict_get (d ++ [(k, v)])%list k = Some v.
Proof.
  induction d as [|[k0 v0] d IH]; simpl.
  - now rewrite String.eqb_refl.
  - destruct (k0 =? k); [discriminate|]. exact IH.
Qed.

Lemma dict_set_snoc d k v v' :
  dict_get d k = None ->
  dict_set (d ++ [(k, v)])%list k v' = (d ++ [(k, v')])%list.
Proof.
  induction d as [|[k0 v0] d IH]; simpl.
  - now rewrite String.eqb_refl.
  - destruct (k0 =? k); [discriminate|]. intros H. now rewrite IH.
Qed.

(** What a comprehension holds for a key: the value of the last element
    that produced the key. *)
Lemma dict_comprehension_snoc {A} (kv : A -> string * V) (l : list A) (x : A) :
  dict_comprehension kv (l ++ [x])%list
  = dict_set (dict_comprehension kv l) (fst (kv x)) (snd (kv x)).
Proof. unfold dict_comprehension. now rewrite fold_left_app. Qed.

Lemma dict_comprehension_contains {A} (kv : A -> string * V) (l : list A) k :
  dict_contains (dict_comprehension kv l) k = true
  <-> exists x, In x l /\ fst (kv x) = k.
Proof.
  unfold dict_contains.
  induction l as [|x l IH] using rev_ind.
  - simpl. split; [discriminate | intros (x & [] & _)].
  - rewrite dict_comprehension_snoc, dict_get_set.
    destruct (String.eqb_spec (fst (kv x)) k) as [E|N].
    + split; [intros _|reflexivity]. exists x. split; [|exact E].
      apply in_or_app. right. now left.
    + rewrite IH. split.
      * intros (y & I & E). exists y. split; [|exact E].
        apply in_or_app. now left.
      * intros (y & I & E). apply in_app_or in I as [I|[->|[]]].
        -- now exists y.
        -- contradiction.
Qed.

Lemma dict_comprehension_get {A} (kv : A -> string * V) (l : list A) k v :
  dict_get (dict_comprehension kv l) k = Some v ->
  exists x, In x l /\ kv x = (k, v).
Proof.
  induction l as [|x l IH] using rev_ind.
  - discriminate.
  - rewrite dict_comprehension_snoc, dict_get_set.
    destruct (String.eqb_spec (fst (kv x)) k) as [E|N].
    + intros [= <-]. exists x. split.
      * apply in_or_app. right. now left.
      * rewrite <- E. now destruct (kv x).
    + intros H. destruct (IH H) as (y & I & E). exists y. split; [|exact E].
      apply in_or_app. now left.
Qed.

(** When equal keys come with equal values, any element gives the value. *)
Lemma dict_comprehension_get_In {A} (kv : A -> string * V) (l : list A) x :
  (forall y, In y l -> fst (kv y) = fst (kv x) -> snd (kv y) = snd (kv x)) ->
  In x l ->
  dict_get (dict_comprehension kv l) (fst (kv x)) = Some (snd (kv x)).
Proof.
  intros U I.
  assert (C : dict_contains (dict_comprehension kv l) (fst (kv x)) = true).
  { apply dict_comprehension_contains. now exists x. }
  unfold dict_contains in C.
  destruct (dict_get (dict_comprehension kv l) (fst (kv x))) as [v|] eqn:G;
    [|discriminate].
  destruct (dict_comprehension_get _ _ _ _ G) as (y & Iy & E).
  f_equal. rewrite <- (U y Iy); now rewrite E.
Qed.

End DictFacts.

Lemma filter_nil_iff {A} (f : A -> bool) (l : list A) :
  filter f l = [] <-> forall x, In x l -> f x = false.
Proof.
  induction l as [|x l IH]; simpl.
  - tauto.
  - destruct (f x) eqn:E.
    + split; [discriminate|]. intros H. specialize (H x (or_introl eq_refl)).
      congruence.
    + rewrite IH. split.
      * intros H y [<-|I]; auto.
      * intros H y I. apply H. now right.
Qed.

(* ------------------------------------------------------------------ *)
(** ** check_user_submission_file_paths *)

Section CheckFacts.

Implicit Types (gt us : dict string).

Lemma missing_gt_examples_In gt us k :
  In k (missing_gt_examples gt us) <-> only_in gt us k.
Proof.
  unfold missing_gt_examples, only_in. rewrite filter_In, negb_true_iff.
  now rewrite dict_contains_false.
Qed.

Lemma missing_gt_examples_nil gt us :
  missing_gt_examples gt us = [] <-> (forall k, ~ only_in gt us k).
Proof.
  split.
  - intros E k I. apply missing_gt_examples_In in I. rewrite E in I.
    destruct I.
  - intros H. destruct (missing_gt_examples gt us) as [|k l] eqn:E;
      [reflexivity|].
    exfalso. apply (H k). apply missing_gt_examples_In. rewrite E. now left.
Qed.

Lemma same_keys_iff gt us :
  same_keys gt us
  <-> missing_gt_examples gt us = [] /\ missing_gt_examples us gt = [].
Proof.
  rewrite !missing_gt_examples_nil. unfold same_keys, only_in. split.
  - intros H. split; intros k [I N]; apply N, H, I.
  - intros [H1 H2] k. split; intros I.
    + destruct (in_dec string_dec k (dict_keys us)) as [J|J]; [exact J|].
      exfalso. apply (H1 k). now split.
    + destruct (in_dec string_dec k (dict_keys gt)) as [J|J]; [exact J|].
      exfalso. apply (H2 k). now split.
Qed.

Lemma check_unfold gt us :
  check_user_submission_file_paths gt us
  = match missing_gt_examples gt us with
    | _ :: _ =>
        Raise (ValueError ("There are missing evaluation examples: "
                           ++ str_list (missing_gt_examples gt us)))
    | [] =>
        match missing_gt_examples us gt with
        | _ :: _ =>
            Raise (ValueError ("Unexpected submitted evaluation examples "
                               ++ str_list (missing_gt_examples us gt)))
        | [] => Ok tt
        end
    end.
Proof.
  unfold check_user_submission_file_paths.
  fold (missing_gt_examples gt us). fold (missing_gt_examples us gt).
  destruct (missing_gt_examples gt us); simpl; [|reflexivity].
  destruct (missing_gt_examples us gt); reflexivity.
Qed.

Lemma check_Ok_iff gt us :
  check_user_submission_file_paths gt us = Ok tt <-> same_keys gt us.
Proof.
  rewrite check_unfold, same_keys_iff.
  destruct (missing_gt_examples gt us); [|split; [discriminate|]].
  - destruct (missing_gt_examples us gt); [tauto|].
    split; [discriminate|]. intros [_ H]. discriminate.
  - intros [H _]. discriminate.
Qed.

(** What the function raises when the key sets differ. *)
Lemma check_raises gt us :
  ~ same_keys gt us ->
  exists names,
    ((exists k, only_in gt us k)
     /\ (forall k, In k names <-> only_in gt us k)
     /\ check_user_submission_file_paths gt us
        = Raise (ValueError ("There are missing evaluation examples: "
                             ++ str_list names)))
    \/ ((forall k, ~ only_in gt us k)
        /\ symmetric_difference gt us names
        /\ check_user_submission_file_paths gt us
           = Raise (ValueError ("Unexpected submitted evaluation examples "
                                ++ str_list names))).
Proof.
  intros D. rewrite check_unfold.
  destruct (missing_gt_examples gt us) as [|k l] eqn:M.
  - destruct (missing_gt_examples us gt) as [|k l] eqn:A.
    + exfalso. apply D, same_keys_iff. now split.
    + exists (k :: l). right. split; [now apply missing_gt_examples_nil|].
      split; [|reflexivity].
      intros x. rewrite <- A, missing_gt_examples_In.
      pose proof (proj1 (missing_gt_examples_nil gt us) M x). tauto.
  - exists (k :: l). left. split; [|split; [|reflexivity]].
    + exists k. apply missing_gt_examples_In. rewrite M. now left.
    + intros x. rewrite <- M. apply missing_gt_examples_In.
Qed.

End CheckFacts.

(** C4. When the two mappings have the same example-name set,
    [check_user_submission_file_paths] returns without raising, whatever
    file paths the mappings hold. *)
Theorem check_user_submission_file_paths_succeeds
  (ground_truth_files user_submission_files : dict string) :
  same_keys ground_truth_files user_submission_files ->
  check_user_submission_file_paths ground_truth_files user_submission_files
  = Ok tt.
Proof. apply check_Ok_iff. Qed.

(** C4 on two mappings with the same two names, in different orders and with
    different paths. *)
Lemma check_user_submission_file_paths_succeeds_witness :
  same_keys [("a", "gt/a"); ("b", "gt/b")] [("b", "pred/b"); ("a", "x")]
  /\ check_user_submission_file_paths
       [("a", "gt/a"); ("b", "gt/b")] [("b", "pred/b"); ("a", "x")]
     = Ok tt.
Proof.
  assert (S : same_keys [("a", "gt/a"); ("b", "gt/b")]
                        [("b", "pred/b"); ("a", "x")]).
  { intros k; simpl; tauto. }
  split; [exact S|].
  exact (check_user_submission_file_paths_succeeds _ _ S).
Defined.

(* ------------------------------------------------------------------ *)
(** ** Paths and patterns *)

Section PathFacts.

Import PosixPath.

Lemma slash_free_cons (c : ascii) (s : string) :
  slash_free (String c s) = negb (Ascii.eqb c "/") && slash_free s.
Proof.
  unfold slash_free. cbn [contains]. now rewrite negb_orb, Ascii.eqb_sym.
Qed.

Lemma slash_free_app (a b : string) :
  slash_free (a ++ b) = slash_free a && slash_free b.
Proof. unfold slash_free. now rewrite contains_app, negb_orb. Qed.

Lemma rsplit_slash_free (n : string) :
  slash_free n = true -> rsplit_slash n = (EmptyString, n).
Proof.
  induction n as [|c n IH]; [reflexivity|].
  rewrite slash_free_cons. intros H. apply andb_true_iff in H as [C F].
  cbn [rsplit_slash]. rewrite (IH F).
  apply negb_true_iff in C. now rewrite C.
Qed.

Lemma rsplit_slash_app (p n : string) :
  slash_free n = true -> rsplit_slash (p ++ "/" ++ n) = (p ++ "/", n).
Proof.
  intros F. induction p as [|c p IH].
  - change (EmptyString ++ "/" ++ n) with (String "/" n).
    cbn [rsplit_slash]. now rewrite (rsplit_slash_free n F).
  - change (String c p ++ "/" ++ n) with (String c (p ++ "/" ++ n)).
    cbn [rsplit_slash]. rewrite IH. now destruct p.
Qed.

(** The head of the raw split is empty exactly on slash-free strings. *)
Lemma rsplit_slash_head (s : string) :
  fst (rsplit_slash s) = EmptyString <-> slash_free s = true.
Proof.
  induction s as [|c s IH]; [now split|].
  rewrite slash_free_cons. cbn [rsplit_slash].
  destruct (rsplit_slash s) as [[|a h] t]; cbn [fst] in *.
  - destruct (Ascii.eqb c "/"); cbn [fst negb andb].
    + split; intros E; discriminate.
    + split; [intros _; now apply IH | reflexivity].
  - split; [discriminate|]. intros H. apply andb_true_iff in H as [_ F].
    apply IH in F. discriminate.
Qed.

(** The tail of a split is slash-free and a suffix. *)
Lemma rsplit_slash_spec (s : string) :
  s = fst (rsplit_slash s) ++ snd (rsplit_slash s)
  /\ slash_free (snd (rsplit_slash s)) = true.
Proof.
  induction s as [|c s [E F]]; [now split|].
  cbn [rsplit_slash].
  destruct (rsplit_slash s) as [[|a h] t] eqn:R; cbn [fst snd] in *.
  - destruct (Ascii.eqb_spec c "/") as [->|N]; cbn [fst snd].
    + split; [now rewrite E at 1|exact F].
    + split; [now rewrite E at 1|]. rewrite slash_free_cons, F.
      apply Ascii.eqb_neq in N. now rewrite N.
  - split; [|exact F]. rewrite E at 1. reflexivity.
Qed.

Lemma split_snd (p : string) : snd (split p) = snd (rsplit_slash p).
Proof. unfold split. now destruct (rsplit_slash p). Qed.

(** A slash-free suffix is looked for in the last component only. *)
Lemma endswith_basename (s suf : string) :
  slash_free suf = true ->
  endswith s suf = endswith (snd (split s)) suf.
Proof.
  intros F. rewrite split_snd. induction s as [|c s IH]; [reflexivity|].
  rewrite endswith_cons, IH. cbn [rsplit_slash].
  pose proof (rsplit_slash_head s) as Hd.
  pose proof (rsplit_slash_spec s) as [E Ft].
  destruct (rsplit_slash s) as [[|a h] t]; cbn [fst snd] in *.
  - assert (Fs : slash_free s = true) by now apply Hd.
    cbn [append] in E. subst t.
    destruct (Ascii.eqb_spec c "/") as [->|N]; cbn [snd].
    + destruct (String.eqb_spec suf (String "/" s)) as [->|_]; [|reflexivity].
      rewrite slash_free_cons in F. discriminate.
    + now rewrite endswith_cons.
  - destruct (String.eqb_spec suf (String c s)) as [->|_]; [|reflexivity].
    rewrite slash_free_cons in F. apply andb_true_iff in F as [_ F].
    apply Hd in F. discriminate.
Qed.

Lemma join_relative (a b : string) :
  startswith b "/" = false -> join a b = join_prefix a ++ b.
Proof.
  intros H. unfold join, join_prefix. rewrite H.
  destruct ((a =? EmptyString) || endswith a "/"); [reflexivity|].
  now rewrite append_assoc.
Qed.

Lemma slash_free_relative (b : string) :
  slash_free b = true -> startswith b "/" = false.
Proof.
  destruct b as [|c b]; [reflexivity|].
  rewrite slash_free_cons. intros H. apply andb_true_iff in H as [C _].
  change "/" with (String "/" EmptyString). rewrite startswith_cons_cons.
  destruct (ascii_dec "/" c) as [<-|]; [discriminate|reflexivity].
Qed.

Lemma join_prefix_cases (a : string) :
  join_prefix a = EmptyString \/ exists p, join_prefix a = p ++ "/".
Proof.
  unfold join_prefix.
  destruct (String.eqb_spec a EmptyString) as [->|N]; simpl; [now left|].
  destruct (endswith a "/") eqn:E.
  - right. now apply endswith_inv.
  - right. now exists a.
Qed.

Lemma rsplit_slash_join (a b : string) :
  slash_free b = true -> rsplit_slash (join a b) = (join_prefix a, b).
Proof.
  intros F. rewrite join_relative by now apply slash_free_relative.
  destruct (join_prefix_cases a) as [->|[p ->]].
  - now apply rsplit_slash_free.
  - rewrite append_assoc. now apply rsplit_slash_app.
Qed.

Lemma split_join (a b : string) :
  slash_free b = true ->
  split (join a b) = (dirname_of a, b).
Proof.
  intros F. unfold dirname_of, split.
  rewrite (rsplit_slash_join a b F), (rsplit_slash_join a "*" eq_refl).
  reflexivity.
Qed.

End PathFacts.

Section GlobFacts.

Lemma literal_cons (c : ascii) (pat : string) :
  literal (String c pat) = true ->
  Ascii.eqb c "*" = false /\ Ascii.eqb c "?" = false /\ literal pat = true.
Proof.
  unfold literal. cbn [contains]. rewrite !negb_orb.
  rewrite (Ascii.eqb_sym "*"), (Ascii.eqb_sym "?").
  destruct (Ascii.eqb c "*"), (Ascii.eqb c "?"); cbn [negb andb];
    rewrite ?andb_false_r; try discriminate.
  intros H. now repeat split.
Qed.

Lemma fnmatch_literal (pat name : string) :
  literal pat = true -> fnmatch pat name = (pat =? name).
Proof.
  revert name. induction pat as [|c pat IH]; intros name L.
  - now destruct name.
  - apply literal_cons in L as (S & Q & L).
    cbn [fnmatch]. rewrite S, Q. destruct name as [|d name]; [reflexivity|].
    rewrite (IH name L). reflexivity.
Qed.

Lemma fnmatch_star (lit name : string) :
  literal lit = true -> fnmatch (String "*" lit) name = endswith name lit.
Proof.
  intros L. cbn [fnmatch]. rewrite Ascii.eqb_refl.
  induction name as [|c name IH].
  - now rewrite endswith_nil, (fnmatch_literal lit _ L), orb_false_r.
  - now rewrite endswith_cons, (fnmatch_literal lit _ L), IH.
Qed.

Lemma postfix_literal (t : result_type) : literal (postfix t) = true.
Proof. now destruct t. Qed.

(** The names [glob] keeps for the pattern [*<postfix>]: visible and ending
    with the postfix. *)
Lemma glob1_star (fs : filesystem) (dirname : string) (t : result_type) :
  glob1 fs dirname ("*" ++ postfix t)
  = filter (fun x => endswith x (postfix t))
      (filter (fun x => negb (ishidden x)) (listdir fs dirname)).
Proof.
  unfold glob1. change (ishidden ("*" ++ postfix t)) with false. cbv iota.
  apply filter_ext. intros x.
  apply (fnmatch_star (postfix t) x (postfix_literal t)).
Qed.

Lemma contains_rstrip_slash (c : ascii) (s : string) :
  contains c (PosixPath.rstrip_slash s) = true -> contains c s = true.
Proof.
  induction s as [|d s IH]; [discriminate|].
  cbn [PosixPath.rstrip_slash contains].
  destruct (PosixPath.rstrip_slash s) as [|e r].
  - destruct (Ascii.eqb d "/"); cbn [contains]; [discriminate|].
    rewrite orb_false_r. intros ->. reflexivity.
  - cbn [contains] in *. intros H. apply orb_true_iff in H as [H|H].
    + now rewrite H.
    + rewrite (IH H). apply orb_true_r.
Qed.

Lemma has_magic_false (s : string) :
  has_magic s = false
  <-> contains "*" s = false /\ contains "?" s = false /\ contains "[" s = false.
Proof.
  unfold has_magic.
  destruct (contains "*" s), (contains "?" s), (contains "[" s); cbn;
    intuition congruence.
Qed.

Lemma contains_join_prefix (c : ascii) (a : string) :
  Ascii.eqb c "/" = false ->
  contains c a = false -> contains c (join_prefix a) = false.
Proof.
  intros N H. unfold join_prefix.
  destruct ((a =? EmptyString) || endswith a "/"); [exact H|].
  rewrite contains_app, H. cbn [contains]. now rewrite N.
Qed.

Lemma contains_dirname_of (c : ascii) (a : string) :
  Ascii.eqb c "/" = false ->
  contains c a = false -> contains c (dirname_of a) = false.
Proof.
  intros N H. unfold dirname_of, PosixPath.split.
  rewrite (rsplit_slash_join a "*" eq_refl).
  pose proof (contains_join_prefix c a N H) as J.
  destruct (PosixPath.all_slashes (join_prefix a)); cbn [fst]; [exact J|].
  destruct (contains c (PosixPath.rstrip_slash (join_prefix a))) eqn:E;
    [|reflexivity].
  apply contains_rstrip_slash in E. congruence.
Qed.

Lemma has_magic_dirname_of (result_dir : string) :
  has_magic result_dir = false -> has_magic (dirname_of result_dir) = false.
Proof.
  rewrite !has_magic_false. intros (A & B & C).
  repeat split; now apply contains_dirname_of.
Qed.

(** [glob] on [os.path.join(result_dir, "*<postfix>")] for a literal
    [result_dir]: the paths of the visible entries that end with the
    postfix. *)
Lemma glob_result_dir (fs : filesystem) (result_dir : string) (t : result_type) :
  has_magic result_dir = false ->
  glob fs (PosixPath.join result_dir ("*" ++ postfix t))
  = map (glob_path result_dir)
      (filter (fun x => endswith x (postfix t))
         (filter (fun x => negb (ishidden x)) (entries fs result_dir))).
Proof.
  intros M. apply has_magic_dirname_of in M.
  unfold glob. rewrite split_join by now destruct t.
  unfold glob_path, entries.
  destruct (dirname_of result_dir =? EmptyString) eqn:E.
  - rewrite glob1_star. symmetry. apply map_id.
  - rewrite M, andb_false_r. cbn [flat_map]. rewrite app_nil_r.
    now rewrite glob1_star.
Qed.

End GlobFacts.

(* ------------------------------------------------------------------ *)
(** ** Sorting *)

Lemma insert_sorted_perm (x : string) (l : list string) :
  Permutation (insert_sorted x l) (x :: l).
Proof.
  induction l as [|y l IH]; cbn [insert_sorted]; [reflexivity|].
  destruct (String.leb x y); [reflexivity|].
  rewrite IH. apply perm_swap.
Qed.

Lemma sorted_perm (l : list string) : Permutation (sorted l) l.
Proof.
  induction l as [|x l IH]; cbn [sorted]; [reflexivity|].
  rewrite insert_sorted_perm. now apply perm_skip.
Qed.

Lemma sorted_In (l : list string) (x : string) : In x (sorted l) <-> In x l.
Proof.
  split; apply Permutation_in; [|symmetry]; apply sorted_perm.
Qed.

Lemma sorted_NoDup (l : list string) : NoDup l -> NoDup (sorted l).
Proof.
  apply Permutation_NoDup. symmetry. apply sorted_perm.
Qed.

(* ------------------------------------------------------------------ *)
(** ** The per-type dictionaries of get_result_directory_file_names *)

Section ResultTypeFiles.

Variable fs : filesystem.
Variable result_dir : string.
Variable has_depth_masks : bool.
Hypothesis literal_dir : has_magic result_dir = false.
Hypothesis plain : plain_entries fs result_dir.

Let rtf := result_type_files fs result_dir has_depth_masks.

Lemma glob_path_basename (x : string) :
  slash_free x = true -> snd (PosixPath.split (glob_path result_dir x)) = x.
Proof.
  intros F. rewrite split_snd. unfold glob_path.
  destruct (dirname_of result_dir =? EmptyString).
  - now rewrite rsplit_slash_free.
  - now rewrite rsplit_slash_join.
Qed.

Lemma glob_path_app (a b : string) :
  slash_free (a ++ b) = true ->
  glob_path result_dir (a ++ b) = glob_path result_dir a ++ b.
Proof.
  intros F. pose proof F as F'. rewrite slash_free_app in F'.
  apply andb_true_iff in F' as [Fa _].
  unfold glob_path. destruct (dirname_of result_dir =? EmptyString);
    [reflexivity|].
  rewrite !join_relative by now apply slash_free_relative.
  now rewrite append_assoc.
Qed.

Lemma glob_path_endswith (x suf : string) :
  slash_free x = true -> slash_free suf = true ->
  endswith (glob_path result_dir x) suf = endswith x suf.
Proof.
  intros Fx Fs. now rewrite (endswith_basename _ _ Fs), glob_path_basename.
Qed.

(** The files the first loop keeps for [t], before they are put in the
    dictionary. *)
Lemma matching_files_In (t : result_type) (f : string) :
  In f (if has_depth_masks && is_mask t
        then filter (fun f => negb (endswith f "_depth_mask.png"))
               (sorted (glob fs (PosixPath.join result_dir ("*" ++ postfix t))))
        else sorted (glob fs (PosixPath.join result_dir ("*" ++ postfix t))))
  <-> exists x, In x (entries fs result_dir)
                /\ matched has_depth_masks t x = true
                /\ f = glob_path result_dir x.
Proof.
  rewrite (glob_result_dir fs result_dir t literal_dir).
  assert (G : forall f,
             In f (sorted (map (glob_path result_dir)
                     (filter (fun x => endswith x (postfix t))
                        (filter (fun x => negb (ishidden x))
                           (entries fs result_dir)))))
             <-> exists x, In x (entries fs result_dir)
                           /\ negb (ishidden x) && endswith x (postfix t) = true
                           /\ f = glob_path result_dir x).
  { intros g. rewrite sorted_In, in_map_iff. split.
    - intros (x & <- & I). apply filter_In in I as [I E].
      apply filter_In in I as [I H]. exists x. now rewrite H, E.
    - intros (x & I & H & ->). apply andb_true_iff in H as [H E].
      exists x. split; [reflexivity|]. apply filter_In. split; [|exact E].
      apply filter_In. now split. }
  unfold matched. destruct (has_depth_masks && is_mask t); cbn [andb negb].
  - rewrite filter_In, G. split.
    + intros ((x & I & H & ->) & D). exists x. split; [exact I|].
      split; [|reflexivity].
      rewrite glob_path_endswith in D by (auto using plain).
      now rewrite H, D.
    + intros (x & I & H & ->). apply andb_true_iff in H as [H D].
      split; [now exists x|].
      now rewrite glob_path_endswith by (auto using plain).
  - rewrite G. split; intros (x & I & H & ->); exists x;
      rewrite andb_true_r in *; auto.
Qed.

Lemma rtf_contains (t : result_type) (n : string) :
  dict_contains (rtf t) n = true
  <-> has_matched_file fs result_dir has_depth_masks n t.
Proof.
  unfold rtf, result_type_files, has_matched_file, has_file.
  rewrite dict_comprehension_contains. cbn [fst snd]. split.
  - intros (f & I & K). apply matching_files_In in I as (x & I & H & ->).
    rewrite glob_path_basename in K by now apply plain.
    assert (E : endswith x (postfix t) = true).
    { unfold matched in H. apply andb_true_iff in H as [H _].
      now apply andb_true_iff in H as [_ H]. }
    apply endswith_inv in E as [p ->].
    rewrite (slice_to_neg_app p (postfix t)) in K.
    subst p. now split.
  - intros [I H]. exists (glob_path result_dir (n ++ postfix t)). split.
    + apply matching_files_In. now exists (n ++ postfix t).
    + rewrite glob_path_basename by now apply plain.
      apply (slice_to_neg_app n (postfix t)).
Qed.

Lemma rtf_get (t : result_type) (n f : string) :
  dict_get (rtf t) n = Some f -> f = glob_path result_dir (n ++ postfix t).
Proof.
  unfold rtf, result_type_files. intros G.
  apply dict_comprehension_get in G as (g & I & E).
  apply matching_files_In in I as (x & I & H & ->).
  pose proof (f_equal fst E) as K. pose proof (f_equal snd E) as F.
  cbn [fst snd] in K, F. clear E. subst f.
  rewrite glob_path_basename in K by now apply plain.
  assert (E : endswith x (postfix t) = true).
  { unfold matched in H. apply andb_true_iff in H as [H _].
    now apply andb_true_iff in H as [_ H]. }
  apply endswith_inv in E as [p ->].
  rewrite (slice_to_neg_app p (postfix t)) in K.
  now subst p.
Qed.

End ResultTypeFiles.

(* ------------------------------------------------------------------ *)
(** ** The completeness check of get_result_directory_file_names *)

Section MissingExamples.

Variable rtf : result_type -> dict string.

Lemma example_names_In (n : string) :
  In n (example_names rtf) <-> exists t, dict_contains (rtf t) n = true.
Proof.
  unfold example_names, set. rewrite sorted_In, nodup_In, in_flat_map.
  split.
  - intros (t & _ & I). exists t. now apply dict_contains_In.
  - intros (t & C). exists t. split; [|now apply dict_contains_In].
    destruct t; cbn; auto.
Qed.

Lemma example_names_NoDup : NoDup (example_names rtf).
Proof. apply sorted_NoDup, NoDup_nodup. Qed.

Lemma defaultdict_append_new d n t :
  dict_get d n = None -> defaultdict_append d n t = (d ++ [(n, [t])])%list.
Proof.
  intros G. unfold defaultdict_append. rewrite G. now apply dict_set_new.
Qed.

Lemma defaultdict_append_snoc d n v t :
  dict_get d n = None ->
  defaultdict_append (d ++ [(n, v)])%list n t
  = (d ++ [(n, (v ++ [t])%list)])%list.
Proof.
  intros G. unfold defaultdict_append. rewrite (dict_get_snoc _ _ _ G).
  now apply dict_set_snoc.
Qed.

(** One round of the outer loop, for a name not met before. *)
Lemma missing_examples_step d n :
  dict_get d n = None ->
  fold_left
    (fun d t =>
       if dict_contains (rtf t) n then d else defaultdict_append d n t)
    result_types d
  = (d ++ incomplete_items rtf [n])%list.
Proof.
  intros G. unfold incomplete_items, missing_types, result_types.
  cbn [fold_left flat_map filter].
  destruct (dict_contains (rtf Image) n), (dict_contains (rtf Mask) n),
    (dict_contains (rtf Depth) n); cbn [negb app];
    rewrite ?app_nil_r;
    rewrite ?(defaultdict_append_new _ _ _ G);
    rewrite ?(defaultdict_append_snoc _ _ _ _ G);
    reflexivity.
Qed.

Lemma incomplete_items_keys (names : list string) (n : string) :
  In n (dict_keys (incomplete_items rtf names)) -> In n names.
Proof.
  unfold incomplete_items, dict_keys. rewrite in_map_iff.
  intros ([k v] & <- & I). apply in_flat_map in I as (m & I & J).
  destruct (missing_types rtf m); [destruct J|].
  destruct J as [[= <- _]|[]]. exact I.
Qed.

Lemma incomplete_items_NoDup (names : list string) :
  NoDup names -> NoDup (dict_keys (incomplete_items rtf names)).
Proof.
  induction names as [|n names IH]; intros ND; [constructor|].
  apply NoDup_cons_iff in ND as [NI ND].
  change (n :: names) with ([n] ++ names)%list.
  unfold incomplete_items. rewrite flat_map_app.
  fold (incomplete_items rtf names). cbn [flat_map]. rewrite app_nil_r.
  destruct (missing_types rtf n); [now apply IH|].
  cbn [app dict_keys map fst]. constructor; [|now apply IH].
  intros I. apply NI. now apply incomplete_items_keys.
Qed.

Lemma incomplete_items_app (l l' : list string) :
  incomplete_items rtf (l ++ l')
  = (incomplete_items rtf l ++ incomplete_items rtf l')%list.
Proof. apply flat_map_app. Qed.

Lemma missing_examples_eq (names : list string) :
  NoDup names -> missing_examples rtf names = incomplete_items rtf names.
Proof.
  unfold missing_examples.
  induction names as [|n names IH] using rev_ind; [reflexivity|].
  intros ND. apply NoDup_remove in ND as [ND NI]. rewrite app_nil_r in *.
  rewrite fold_left_app. cbn [fold_left]. rewrite (IH ND).
  rewrite missing_examples_step, incomplete_items_app; [reflexivity|].
  apply dict_get_None. intros I. apply NI. now apply incomplete_items_keys.
Qed.

Lemma incomplete_items_In (names : list string) n v :
  In (n, v) (incomplete_items rtf names)
  <-> In n names /\ v = missing_types rtf n /\ v <> [].
Proof.
  unfold incomplete_items. rewrite in_flat_map. split.
  - intros (m & I & J). destruct (missing_types rtf m) as [|t w] eqn:E;
      [destruct J|].
    destruct J as [[= <- <-]|[]]. rewrite E. repeat split; [exact I|discriminate].
  - intros (I & -> & N). exists n. split; [exact I|].
    destruct (missing_types rtf n); [congruence|now left].
Qed.

Lemma incomplete_items_nil (names : list string) :
  incomplete_items rtf names = []
  <-> forall n, In n names -> missing_types rtf n = [].
Proof.
  split.
  - intros E n I. destruct (missing_types rtf n) as [|t v] eqn:M;
      [reflexivity|].
    assert (J : In (n, t :: v) (incomplete_items rtf names)).
    { apply incomplete_items_In. rewrite M. repeat split; [exact I|discriminate]. }
    rewrite E in J. destruct J.
  - intros H. destruct (incomplete_items rtf names) as [|[n v] l] eqn:E;
      [reflexivity|].
    assert (J : In (n, v) (incomplete_items rtf names)) by (rewrite E; now left).
    apply incomplete_items_In in J as (I & -> & N). now rewrite (H n I) in N.
Qed.

Lemma missing_types_In (n : string) (t : result_type) :
  In t (missing_types rtf n) <-> dict_contains (rtf t) n = false.
Proof.
  unfold missing_types. rewrite filter_In, negb_true_iff. split.
  - now intros [_ H].
  - intros H. split; [destruct t; cbn; auto|exact H].
Qed.

End MissingExamples.

Lemma mapM_Ok {A B} (f : A -> result B) (g : A -> B) (l : list A) :
  (forall x, In x l -> f x = Ok (g x)) -> mapM f l = Ok (map g l).
Proof.
  induction l as [|x l IH]; intros H; [reflexivity|].
  cbn [mapM map]. rewrite (H x (or_introl eq_refl)). cbn [bind].
  rewrite IH; [reflexivity|]. intros y I. apply H. now right.
Qed.

Lemma dict_get_map {V} (g : string -> V) (l : list string) (n : string) :
  In n l -> dict_get (map (fun n => (n, g n)) l) n = Some (g n).
Proof.
  induction l as [|m l IH]; [intros []|].
  intros I. cbn [map dict_get].
  destruct (String.eqb_spec m n) as [->|N]; [reflexivity|].
  destruct I as [->|I]; [congruence|now apply IH].
Qed.

Lemma dict_comprehension_id {V} (l : list (string * V)) :
  NoDup (map fst l) -> dict_comprehension (fun kv => kv) l = l.
Proof.
  induction l as [|[k v] l IH] using rev_ind; [reflexivity|].
  rewrite map_app. cbn [map fst]. intros ND.
  apply NoDup_remove in ND as [ND NI]. rewrite app_nil_r in *.
  rewrite dict_comprehension_snoc, (IH ND). cbn [fst snd].
  apply dict_set_new. now apply dict_get_None.
Qed.

(* ------------------------------------------------------------------ *)
(** ** get_result_directory_file_names *)

Section GetResultDirectoryFileNames.

Variable fs : filesystem.
Variable result_dir : string.
Variable has_depth_masks : bool.

Let rtf := result_type_files fs result_dir has_depth_masks.
Let names := example_names rtf.

(** The function raises as soon as one example is incomplete. *)
Lemma get_result_raises :
  incomplete_items rtf names <> [] ->
  get_result_directory_file_names fs result_dir has_depth_masks
  = Raise (ValueError (incomplete_message (incomplete_items rtf names))).
Proof.
  intros N. unfold get_result_directory_file_names. fold rtf. fold names.
  rewrite (missing_examples_eq rtf names (example_names_NoDup rtf)).
  destruct (incomplete_items rtf names); [congruence|reflexivity].
Qed.

(** Otherwise it returns, for each example in sorted order, what is left of
    the image file once the postfix is cut. *)
Lemma get_result_returns :
  incomplete_items rtf names = [] ->
  exists image_file : string -> string,
    (forall n, In n names -> dict_get (rtf Image) n = Some (image_file n))
    /\ get_result_directory_file_names fs result_dir has_depth_masks
       = Ok (map (fun n =>
                    (n, slice_to_neg (String.length "_image.png") (image_file n)))
                 names).
Proof.
  intros E.
  exists (fun n => match dict_get (rtf Image) n with
                   | Some f => f
                   | None => EmptyString
                   end).
  assert (G : forall n, In n names -> exists f, dict_get (rtf Image) n = Some f).
  { intros n I. pose proof (proj1 (incomplete_items_nil rtf names) E n I) as M.
    destruct (dict_contains (rtf Image) n) eqn:C.
    - unfold dict_contains in C. destruct (dict_get (rtf Image) n) as [f|];
        [now exists f|discriminate].
    - apply missing_types_In in C. rewrite M in C. destruct C. }
  split.
  - intros n I. destruct (G n I) as [f ->]. reflexivity.
  - unfold get_result_directory_file_names. fold rtf. fold names.
    rewrite (missing_examples_eq rtf names (example_names_NoDup rtf)), E.
    cbn [List.length Nat.ltb Nat.leb].
    rewrite (mapM_Ok _
               (fun n => (n, slice_to_neg (String.length "_image.png")
                               match dict_get (rtf Image) n with
                               | Some f => f
                               | None => EmptyString
                               end))).
    + cbn [bind]. f_equal. apply dict_comprehension_id.
      rewrite map_map. cbn [fst]. rewrite map_id.
      apply example_names_NoDup.
    + intros n I. destruct (G n I) as [f Gf].
      unfold dict_getitem. rewrite Gf. reflexivity.
Qed.

Hypothesis literal_dir : has_magic result_dir = false.
Hypothesis plain : plain_entries fs result_dir.

Lemma names_In (n : string) :
  In n names
  <-> exists t, has_matched_file fs result_dir has_depth_masks n t.
Proof.
  unfold names. rewrite example_names_In.
  split; intros [t H]; exists t;
    now apply (rtf_contains fs result_dir has_depth_masks literal_dir plain).
Qed.

Lemma missing_types_matched (n : string) (t : result_type) :
  In t (missing_types rtf n)
  <-> ~ has_matched_file fs result_dir has_depth_masks n t.
Proof.
  rewrite missing_types_In.
  rewrite <- (rtf_contains fs result_dir has_depth_masks literal_dir plain).
  fold rtf. destruct (dict_contains (rtf t) n); split; congruence.
Qed.

Lemma missing_types_nonempty (n : string) :
  missing_types rtf n <> []
  <-> exists t, ~ has_matched_file fs result_dir has_depth_masks n t.
Proof.
  split.
  - intros N. destruct (missing_types rtf n) as [|t v] eqn:E; [congruence|].
    exists t. apply missing_types_matched. rewrite E. now left.
  - intros [t H] E. apply missing_types_matched in H. rewrite E in H.
    destruct H.
Qed.

Lemma incomplete_items_example (n : string) :
  In n (dict_keys (incomplete_items rtf names))
  <-> incomplete_example fs result_dir has_depth_masks n.
Proof.
  unfold incomplete_example, dict_keys. rewrite in_map_iff. split.
  - intros ([k v] & <- & I). apply incomplete_items_In in I as (I & -> & N).
    cbn [fst]. split; [now apply names_In | now apply missing_types_nonempty].
  - intros [I N]. exists (n, missing_types rtf n). split; [reflexivity|].
    apply incomplete_items_In.
    split; [now apply names_In|]. split; [reflexivity|].
    now apply missing_types_nonempty.
Qed.

End GetResultDirectoryFileNames.

(** On a concrete listing: from [n ++ suffix = file], the name [n]. *)
Ltac name_of H :=
  match type of H with
  | ?n ++ ?suf = _ =>
      let E := fresh "E" in
      pose proof (f_equal (slice_to_neg (String.length suf)) H) as E;
      rewrite (slice_to_neg_app n suf) in E; cbv in E;
      subst n; try discriminate H
  | _ = ?n ++ ?suf => symmetry in H; name_of H
  end.

(** C8, for a directory named without wildcards. On a directory whose
    path has none of [*], [?], [[] and none of whose entries matches
    [*_image.png], [*_mask.png] or [*_depth.png],
    [get_result_directory_file_names] returns the empty dictionary; it does
    not raise. *)
Theorem get_result_directory_file_names_no_match
  (fs : filesystem) (result_dir : string) (has_depth_masks : bool) :
  has_magic result_dir = false ->
  (forall x t, In x (entries fs result_dir) ->
               fnmatch ("*" ++ postfix t) x = false) ->
  get_result_directory_file_names fs result_dir has_depth_masks = Ok [].
Proof.
  intros M H.
  assert (R : forall t,
             result_type_files fs result_dir has_depth_masks t = []).
  { intros t. unfold result_type_files.
    rewrite (glob_result_dir fs result_dir t M).
    replace (filter (fun x => endswith x (postfix t))
               (filter (fun x => negb (ishidden x)) (entries fs result_dir)))
      with (@nil string).
    - cbn [map sorted]. now destruct (has_depth_masks && is_mask t).
    - symmetry. apply filter_nil_iff. intros x I.
      apply filter_In in I as [I _].
      rewrite <- (fnmatch_star (postfix t) x (postfix_literal t)).
      now apply H. }
  unfold get_result_directory_file_names, example_names, missing_examples,
    result_types.
  cbn [flat_map]. rewrite !R. reflexivity.
Qed.

(** C8 on a directory that holds only other files. *)
Lemma get_result_directory_file_names_no_match_witness :
  get_result_directory_file_names
    (fs_of [("out", ["notes.txt"; "a_image.jpg"; "depth.png"])]) "out" false
  = Ok [].
Proof.
  apply get_result_directory_file_names_no_match; [reflexivity|].
  intros x t I. cbv in I.
  destruct I as [<-|[<-|[<-|[]]]]; now destruct t.
Defined.

(** C8 as stated fails on a directory whose name is itself a pattern: the
    directory [run[1]] is empty, but [glob] reads its name as the pattern
    that matches [run1], finds [run1/x_image.png] there, and the function
    raises for the example [x]. *)
Lemma get_result_directory_file_names_no_match_counterexample :
  (forall x t, In x (entries wildcard_fs "run[1]") ->
               fnmatch ("*" ++ postfix t) x = false)
  /\ glob wildcard_fs (PosixPath.join "run[1]" "*_image.png")
     = ["run1/x_image.png"]
  /\ get_result_directory_file_names wildcard_fs "run[1]" false
     = Raise (ValueError
                ("Some evaluation examples are incomplete:" ++ nl
                 ++ "   x missing ['mask', 'depth']")).
Proof.
  split; [|split; reflexivity].
  intros x t I. destruct I.
Qed.

(** C6, for the files the matching keeps. On a directory (named without wildcards, its entries plain
    names) in which every example that has one file kept by the matching
    has all three, [get_result_directory_file_names] returns a dictionary
    whose keys are exactly these examples and whose value for an example is
    the path of its image file without "_image.png": the root path. The
    matching keeps no dot-file and, with [has_depth_masks], no
    [*_depth_mask.png] as a mask. *)
Theorem get_result_directory_file_names_complete
  (fs : filesystem) (result_dir : string) (has_depth_masks : bool) :
  has_magic result_dir = false ->
  plain_entries fs result_dir ->
  (forall n t, has_matched_file fs result_dir has_depth_masks n t ->
               forall t', has_matched_file fs result_dir has_depth_masks n t') ->
  exists result_files,
    get_result_directory_file_names fs result_dir has_depth_masks
    = Ok result_files
    /\ (forall n, In n (dict_keys result_files)
                  <-> exists t, has_matched_file fs result_dir has_depth_masks n t)
    /\ (forall n, In n (dict_keys result_files) ->
                  dict_get result_files n
                  = Some (slice_to_neg (String.length "_image.png")
                            (glob_path result_dir (n ++ "_image.png")))
                  /\ dict_get result_files n = Some (glob_path result_dir n)).
Proof.
  intros M P C.
  set (rtf := result_type_files fs result_dir has_depth_masks).
  set (names := example_names rtf).
  assert (E : incomplete_items rtf names = []).
  { apply incomplete_items_nil. intros n I.
    apply (names_In fs result_dir has_depth_masks M P) in I as [t H].
    destruct (missing_types rtf n) as [|t' v] eqn:Q; [reflexivity|].
    exfalso.
    apply (missing_types_matched fs result_dir has_depth_masks M P n t').
    - fold rtf. rewrite Q. now left.
    - now apply (C n t). }
  destruct (get_result_returns fs result_dir has_depth_masks E)
    as (image_file & G & R).
  fold rtf in G, R. fold names in G, R.
  assert (K : forall n, In n names ->
              slice_to_neg (String.length "_image.png") (image_file n)
              = glob_path result_dir n
              /\ image_file n = glob_path result_dir (n ++ "_image.png")).
  { intros n I. specialize (G n I).
    apply (rtf_get fs result_dir has_depth_masks M P) in G.
    change (postfix Image) with "_image.png" in G. rewrite G.
    split; [|reflexivity].
    apply (names_In fs result_dir has_depth_masks M P) in I as [t H].
    destruct (C n t H Image) as [I _].
    rewrite glob_path_app by (apply P; exact I).
    apply slice_to_neg_app. }
  eexists. split; [exact R|].
  assert (KS : forall n,
             In n (dict_keys
                     (map (fun n => (n, slice_to_neg (String.length "_image.png")
                                          (image_file n))) names))
             <-> In n names).
  { intros n. unfold dict_keys. rewrite map_map. cbn [fst].
    now rewrite map_id. }
  split.
  - intros n. rewrite KS.
    apply (names_In fs result_dir has_depth_masks M P).
  - intros n I. apply KS in I. destruct (K n I) as [K1 K2].
    rewrite <- K2, K1. rewrite <- K1 at 2.
    rewrite (dict_get_map
               (fun n => slice_to_neg (String.length "_image.png")
                           (image_file n)) names n I).
    now rewrite K1.
Qed.

(** C6 on the ground-truth layout, depth masks announced. *)
Lemma get_result_directory_file_names_complete_witness :
  exists result_files,
    get_result_directory_file_names (fs_of [("gt", gt_listing)]) "gt" true
    = Ok result_files
    /\ (forall n, In n (dict_keys result_files)
                  <-> exists t, has_matched_file
                                  (fs_of [("gt", gt_listing)]) "gt" true n t)
    /\ (forall n, In n (dict_keys result_files) ->
                  dict_get result_files n
                  = Some (slice_to_neg (String.length "_image.png")
                            (glob_path "gt" (n ++ "_image.png")))
                  /\ dict_get result_files n = Some (glob_path "gt" n)).
Proof.
  apply get_result_directory_file_names_complete.
  - reflexivity.
  - intros x I. cbv in I.
    repeat (destruct I as [<-|I]; [reflexivity|]). destruct I.
  - intros n t [I H] t'. unfold has_matched_file, has_file in *.
    change (entries (fs_of [("gt", gt_listing)]) "gt") with gt_listing in *.
    unfold gt_listing in I. cbn [In] in I.
    destruct t; cbn [postfix type_name append] in I;
      repeat (destruct I as [I|I]; [name_of I|]); try destruct I;
      try discriminate H;
      (destruct t'; (split; [cbv; tauto | reflexivity])).
Defined.

(** What the function returns on that folder. *)
Lemma result_files_of_gt_listing :
  get_result_directory_file_names (fs_of [("gt", gt_listing)]) "gt" true
  = Ok [("a", "gt/a"); ("b", "gt/b")].
Proof. reflexivity. Qed.

(** C6 as stated fails on two directories that follow the naming
    convention and hold the three files of their one example: the dot-files
    of example [.x] are not listed by [glob], so the result has no key
    [.x]; and with [has_depth_masks] the mask of example [a_depth] is taken
    for a depth mask, so the function raises. *)
Lemma get_result_directory_file_names_complete_counterexample :
  (complete_directory
     (fs_of [("pred", [".x_image.png"; ".x_mask.png"; ".x_depth.png"])]) "pred"
   /\ has_file
        (fs_of [("pred", [".x_image.png"; ".x_mask.png"; ".x_depth.png"])])
        "pred" ".x" Image
   /\ get_result_directory_file_names
        (fs_of [("pred", [".x_image.png"; ".x_mask.png"; ".x_depth.png"])])
        "pred" false
      = Ok [])
  /\ (complete_directory
        (fs_of [("gt", ["a_depth_image.png"; "a_depth_mask.png";
                        "a_depth_depth.png"])]) "gt"
      /\ has_file
           (fs_of [("gt", ["a_depth_image.png"; "a_depth_mask.png";
                           "a_depth_depth.png"])]) "gt" "a_depth" Image
      /\ get_result_directory_file_names
           (fs_of [("gt", ["a_depth_image.png"; "a_depth_mask.png";
                           "a_depth_depth.png"])]) "gt" true
         = Raise (ValueError
                    ("Some evaluation examples are incomplete:" ++ nl
                     ++ "   a_depth missing ['mask']"))).
Proof.
  split; (split; [|split; [cbv; tauto | reflexivity]]).
  - intros n t I t'. unfold has_file in *.
    change (entries _ "pred")
      with [".x_image.png"; ".x_mask.png"; ".x_depth.png"] in *.
    cbn [In] in I.
    destruct t; cbn [postfix type_name append] in I;
      repeat (destruct I as [I|I]; [name_of I|]); try destruct I;
      (destruct t'; cbv; tauto).
  - intros n t I t'. unfold has_file in *.
    change (entries _ "gt")
      with ["a_depth_image.png"; "a_depth_mask.png"; "a_depth_depth.png"] in *.
    cbn [In] in I.
    destruct t; cbn [postfix type_name append] in I;
      repeat (destruct I as [I|I]; [name_of I|]); try destruct I;
      (destruct t'; cbv; tauto).
Qed.

(** C3, for the files the matching keeps. On a directory (named without wildcards, its entries plain
    names) where some example has at least one but not all three of its
    files kept by the matching, [get_result_directory_file_names] raises a
    [ValueError] whose message has one line for every such example, with
    the result types it misses. The matching keeps no dot-file and, with
    [has_depth_masks], no [*_depth_mask.png] as a mask. *)
Theorem get_result_directory_file_names_incomplete
  (fs : filesystem) (result_dir : string) (has_depth_masks : bool) :
  has_magic result_dir = false ->
  plain_entries fs result_dir ->
  (exists n, incomplete_example fs result_dir has_depth_masks n) ->
  exists missing,
    get_result_directory_file_names fs result_dir has_depth_masks
    = Raise (ValueError (incomplete_message missing))
    /\ NoDup (dict_keys missing)
    /\ (forall n, In n (dict_keys missing)
                  <-> incomplete_example fs result_dir has_depth_masks n)
    /\ (forall n v, In (n, v) missing ->
          forall t, In t v
                    <-> ~ has_matched_file fs result_dir has_depth_masks n t).
Proof.
  intros M P [n0 I0].
  set (rtf := result_type_files fs result_dir has_depth_masks).
  set (names := example_names rtf).
  exists (incomplete_items rtf names).
  pose proof (incomplete_items_example fs result_dir has_depth_masks M P)
    as X. fold rtf in X. fold names in X.
  split; [|split; [|split]].
  - apply get_result_raises. fold rtf. fold names. intros E.
    apply X in I0. rewrite E in I0. destruct I0.
  - apply incomplete_items_NoDup, example_names_NoDup.
  - exact X.
  - intros n v I t. apply incomplete_items_In in I as (_ & -> & _).
    apply (missing_types_matched fs result_dir has_depth_masks M P).
Qed.

(** C3 on a prediction folder where [a] has no mask and [c] only a mask. *)
Lemma get_result_directory_file_names_incomplete_witness :
  exists missing,
    get_result_directory_file_names
      (fs_of [("pred", pred_listing_incomplete)]) "pred" false
    = Raise (ValueError (incomplete_message missing))
    /\ NoDup (dict_keys missing)
    /\ (forall n, In n (dict_keys missing)
                  <-> incomplete_example
                        (fs_of [("pred", pred_listing_incomplete)])
                        "pred" false n)
    /\ (forall n v, In (n, v) missing ->
          forall t, In t v
                    <-> ~ has_matched_file
                          (fs_of [("pred", pred_listing_incomplete)])
                          "pred" false n t).
Proof.
  apply get_result_directory_file_names_incomplete.
  - reflexivity.
  - intros x I. cbv in I.
    repeat (destruct I as [<-|I]; [reflexivity|]). destruct I.
  - exists "a". split.
    + exists Image. split; [cbv; tauto | reflexivity].
    + exists Mask. intros [I _]. cbv in I.
      repeat (destruct I as [I|I]; [discriminate I|]). destruct I.
Defined.

(** The message on that folder. *)
Lemma message_of_incomplete_listing :
  get_result_directory_file_names
    (fs_of [("pred", pred_listing_incomplete)]) "pred" false
  = Raise (ValueError
             ("Some evaluation examples are incomplete:" ++ nl
              ++ "   a missing ['mask']" ++ nl
              ++ "   c missing ['image', 'depth']")).
Proof. reflexivity. Qed.

(** C3 as stated fails on two directories: the example [.x] has an image
    and nothing else, but [glob] does not list dot-files and the function
    returns the empty dictionary; and in a ground-truth folder the file
    [a_depth_mask.png] is by its name the mask of an example [a_depth]
    that has no image, but with [has_depth_masks] it is left out and the
    function returns. *)
Lemma get_result_directory_file_names_incomplete_counterexample :
  (has_file (fs_of [("pred", [".x_image.png"])]) "pred" ".x" Image
   /\ ~ has_file (fs_of [("pred", [".x_image.png"])]) "pred" ".x" Mask
   /\ get_result_directory_file_names
        (fs_of [("pred", [".x_image.png"])]) "pred" false
      = Ok [])
  /\ (has_file (fs_of [("gt", gt_listing)]) "gt" "a_depth" Mask
      /\ ~ has_file (fs_of [("gt", gt_listing)]) "gt" "a_depth" Image
      /\ get_result_directory_file_names
           (fs_of [("gt", gt_listing)]) "gt" true
         = Ok [("a", "gt/a"); ("b", "gt/b")]).
Proof.
  split; (split; [cbv; tauto|]); (split; [|reflexivity]).
  - intros I. cbv in I. destruct I as [I|[]]. discriminate I.
  - intros I. cbv in I.
    repeat (destruct I as [I|I]; [discriminate I|]). destruct I.
Qed.

(* ------------------------------------------------------------------ *)
(** ** Depth masks of the ground-truth folder *)

Section DepthMasks.

Variable fs : filesystem.
Variable result_dir : string.

Lemma endswith_app_l (p s suf : string) :
  endswith s suf = true -> endswith (p ++ s) suf = true.
Proof.
  intros H. apply endswith_inv in H as [q ->].
  rewrite <- append_assoc. apply endswith_app.
Qed.

Lemma join_endswith (a b suf : string) :
  endswith b suf = true -> endswith (PosixPath.join a b) suf = true.
Proof.
  intros H. unfold PosixPath.join.
  destruct (startswith b "/"); [exact H|].
  destruct ((a =? EmptyString) || endswith a "/").
  - now apply endswith_app_l.
  - now apply endswith_app_l, endswith_app_l.
Qed.

(** Whatever the directory, every path [glob] returns for [*<postfix>]
    ends with the postfix. *)
Lemma glob_endswith (t : result_type) (f : string) :
  In f (glob fs (PosixPath.join result_dir ("*" ++ postfix t))) ->
  endswith f (postfix t) = true.
Proof.
  unfold glob. rewrite split_join by now destruct t.
  destruct (dirname_of result_dir =? EmptyString).
  - rewrite glob1_star, filter_In. now intros [_ H].
  - rewrite in_flat_map. intros (d & _ & I).
    apply in_map_iff in I as (x & <- & I).
    rewrite glob1_star, filter_In in I. apply join_endswith, I.
Qed.

(** The entries of the mask dictionary when depth masks are announced. *)
Lemma mask_entry (k f : string) :
  dict_get (result_type_files fs result_dir true Mask) k = Some f ->
  endswith f "_depth_mask.png" = false
  /\ exists q, snd (PosixPath.split f) = q ++ "_mask.png" /\ k = q.
Proof.
  unfold result_type_files. change (true && is_mask Mask) with true.
  cbv iota. intros G. apply dict_comprehension_get in G as (g & I & E).
  pose proof (f_equal fst E) as K. pose proof (f_equal snd E) as F.
  cbn [fst snd] in K, F. clear E. subst g.
  apply filter_In in I as [I D]. apply negb_true_iff in D.
  split; [exact D|].
  apply sorted_In, glob_endswith in I.
  rewrite (endswith_basename f (postfix Mask) eq_refl) in I.
  apply endswith_inv in I as [q Q]. exists q. split; [exact Q|].
  rewrite Q in K. now rewrite (slice_to_neg_app q (postfix Mask)) in K.
Qed.

Lemma mask_key_not_depth (name : string) :
  dict_contains (result_type_files fs result_dir true Mask) (name ++ "_depth")
  = false.
Proof.
  unfold dict_contains.
  destruct (dict_get (result_type_files fs result_dir true Mask)
              (name ++ "_depth")) as [f|] eqn:G; [|reflexivity].
  exfalso. apply mask_entry in G as (D & q & Q & <-).
  rewrite (endswith_basename f "_depth_mask.png" eq_refl), Q in D.
  rewrite append_assoc in D.
  change ("_depth" ++ "_mask.png") with "_depth_mask.png" in D.
  now rewrite endswith_app in D.
Qed.

End DepthMasks.

(** With [has_depth_masks=True] no file ending in "_depth_mask.png" enters
    the "mask" dictionary, so no such file gives a key of the form
    [<name>_depth]: an example name of that form can only come from an
    image or a depth file. *)
Lemma mask_dictionary_excludes_depth_masks
  (fs : filesystem) (gt_folder : string) :
  (forall k f,
      dict_get (result_type_files fs gt_folder true Mask) k = Some f ->
      endswith f "_depth_mask.png" = false)
  /\ (forall name,
         dict_contains (result_type_files fs gt_folder true Mask)
           (name ++ "_depth") = false)
  /\ (forall name,
         In (name ++ "_depth")
            (example_names (result_type_files fs gt_folder true)) ->
         dict_contains (result_type_files fs gt_folder true Image)
           (name ++ "_depth") = true
         \/ dict_contains (result_type_files fs gt_folder true Depth)
              (name ++ "_depth") = true).
Proof.
  split; [|split].
  - intros k f G. now apply mask_entry in G.
  - apply mask_key_not_depth.
  - intros name I. apply example_names_In in I as [t C].
    destruct t; [now left | | now right].
    now rewrite mask_key_not_depth in C.
Qed.

(** The same folder read without [has_depth_masks], as a prediction folder
    is: the depth masks count as masks of examples [a_depth], [b_depth]. *)
Lemma depth_masks_taken_for_masks :
  get_result_directory_file_names (fs_of [("gt", gt_listing)]) "gt" false
  = Raise (ValueError
             ("Some evaluation examples are incomplete:" ++ nl
              ++ "   a_depth missing ['image', 'depth']" ++ nl
              ++ "   b_depth missing ['image', 'depth']")).
Proof. reflexivity. Qed.

(* ------------------------------------------------------------------ *)
(** ** evaluate_file_folders *)

Lemma mapM_length {A B} (f : A -> result B) (l : list A) (ys : list B) :
  mapM f l = Ok ys -> List.length ys = List.length l.
Proof.
  revert ys. induction l as [|x l IH]; intros ys; cbn [mapM].
  - now intros [= <-].
  - destruct (f x); [|discriminate]. cbn [bind].
    destruct (mapM f l) as [zs|]; [|discriminate]. cbn [bind].
    intros [= <-]. cbn [List.length]. now rewrite (IH zs).
Qed.

Section EvaluateFacts.

Variable num : Type.
Variable num0 : num.
Variable num_add : num -> num -> num.
Variable num_div : num -> nat -> num.
Variable frame : Type.
Variable load_rgbda_frame : string -> result frame.
Variable eval_one : frame -> frame -> result (dict num).
Variable EVAL_METRIC_NAMES : list string.

Local Abbreviation evaluate :=
  (evaluate_file_folders num num0 num_add num_div frame
     load_rgbda_frame eval_one EVAL_METRIC_NAMES).

Lemma sum_metric_values (metric : string) (rs : list (dict num))
  (values : list num) :
  Forall2 (fun r v => dict_get r metric = Some v) rs values ->
  sum_metric num num0 num_add metric rs
  = Ok (fold_left num_add values num0).
Proof.
  unfold sum_metric. intros F. generalize num0.
  induction F as [|r v rs vs G F IH]; intros a; [reflexivity|].
  cbn [fold_left bind].
  rewrite (proj2 (dict_getitem_Ok r metric v) G). cbn [bind].
  apply IH.
Qed.

(** The averages of a non-empty list of results that all have every
    metric. *)
Lemma average_metrics_values (rs : list (dict num)) :
  rs <> [] ->
  (forall r metric, In r rs -> In metric EVAL_METRIC_NAMES ->
                    dict_contains r metric = true) ->
  exists result,
    average_metrics num num0 num_add num_div EVAL_METRIC_NAMES rs = Ok result
    /\ (forall metric, In metric (dict_keys result)
                       <-> In metric EVAL_METRIC_NAMES)
    /\ (forall metric, In metric EVAL_METRIC_NAMES ->
          exists values,
            Forall2 (fun r v => dict_get r metric = Some v) rs values
            /\ dict_get result metric
               = Some (arithmetic_mean num num0 num_add num_div values)).
Proof.
  intros N H.
  set (value := fun metric (r : dict num) =>
                  match dict_get r metric with Some v => v | None => num0 end).
  set (mean := fun metric =>
                 arithmetic_mean num num0 num_add num_div
                   (map (value metric) rs)).
  assert (V : forall metric, In metric EVAL_METRIC_NAMES ->
              Forall2 (fun r v => dict_get r metric = Some v)
                rs (map (value metric) rs)).
  { intros metric I.
    assert (C : forall r, In r rs -> dict_contains r metric = true)
      by (intros r J; now apply H).
    clear N H mean. induction rs as [|r rs' IH]; [constructor|].
    cbn [map]. constructor.
    - specialize (C r (or_introl eq_refl)). unfold dict_contains in C.
      unfold value. now destruct (dict_get r metric).
    - apply IH. intros r' J. apply C. now right. }
  assert (M : mapM (fun metric =>
                      s <- sum_metric num num0 num_add metric rs ;;
                      m <- truediv num num_div s (List.length rs) ;;
                      Ok (metric, m)) EVAL_METRIC_NAMES
              = Ok (map (fun metric => (metric, mean metric))
                      EVAL_METRIC_NAMES)).
  { apply mapM_Ok. intros metric I.
    rewrite (sum_metric_values metric rs _ (V metric I)). cbn [bind].
    unfold mean, arithmetic_mean. rewrite length_map.
    destruct rs; [congruence|reflexivity]. }
  exists (dict_comprehension (fun kv => kv)
            (map (fun metric => (metric, mean metric)) EVAL_METRIC_NAMES)).
  split; [unfold average_metrics; now rewrite M|]. split.
  - intros metric. rewrite <- dict_contains_In, dict_comprehension_contains.
    split.
    + intros ([k v] & I & <-). apply in_map_iff in I as (m & [= <- _] & I).
      exact I.
    + intros I. exists (metric, mean metric). split; [|reflexivity].
      apply in_map_iff. now exists metric.
  - intros metric I. exists (map (value metric) rs). split; [now apply V|].
    apply (dict_comprehension_get_In (fun kv => kv)
             (map (fun metric => (metric, mean metric)) EVAL_METRIC_NAMES)
             (metric, mean metric)).
    + intros [k v] J E. apply in_map_iff in J as (m & [= <- <-] & _).
      cbn [fst snd] in *. now subst.
    + apply in_map_iff. now exists metric.
Qed.

(** The two folders are read first, the prediction folder without depth
    masks and the ground-truth folder with them; an incomplete folder makes
    the evaluation raise what its reading raises. *)
Lemma evaluate_file_folders_reads
  (fs : filesystem) (pred_folder gt_folder : string) (e : exn) :
  (get_result_directory_file_names fs pred_folder false = Raise e ->
   evaluate fs pred_folder gt_folder = Raise e)
  /\ (forall user_submission_files,
         get_result_directory_file_names fs pred_folder false
         = Ok user_submission_files ->
         get_result_directory_file_names fs gt_folder true = Raise e ->
         evaluate fs pred_folder gt_folder = Raise e).
Proof.
  unfold evaluate_file_folders. split.
  - intros ->. reflexivity.
  - intros us -> ->. reflexivity.
Qed.

(** C1. When both folders validate with equal example-name sets, there is
    at least one example and every per-example result has every metric of
    [EVAL_METRIC_NAMES], [evaluate_file_folders] returns, for each of these
    metrics, the arithmetic mean of the per-example values: their sum
    divided by the number of examples. *)
Theorem evaluate_file_folders_mean
  (fs : filesystem) (pred_folder gt_folder : string)
  (user_submission_files ground_truth_files : dict string)
  (per_example_results : list (dict num)) :
  get_result_directory_file_names fs pred_folder false
  = Ok user_submission_files ->
  get_result_directory_file_names fs gt_folder true
  = Ok ground_truth_files ->
  same_keys ground_truth_files user_submission_files ->
  ground_truth_files <> [] ->
  mapM (eval_example num frame load_rgbda_frame eval_one
          ground_truth_files user_submission_files)
       (dict_keys ground_truth_files)
  = Ok per_example_results ->
  (forall r metric, In r per_example_results ->
                    In metric EVAL_METRIC_NAMES ->
                    dict_contains r metric = true) ->
  exists result,
    evaluate fs pred_folder gt_folder = Ok (result, per_example_results)
    /\ List.length per_example_results = List.length ground_truth_files
    /\ (forall metric, In metric (dict_keys result)
                       <-> In metric EVAL_METRIC_NAMES)
    /\ (forall metric, In metric EVAL_METRIC_NAMES ->
          exists values,
            Forall2 (fun r v => dict_get r metric = Some v)
              per_example_results values
            /\ dict_get result metric
               = Some (num_div (fold_left num_add values num0)
                         (List.length ground_truth_files))).
Proof.
  intros U G S N P H.
  assert (L : List.length per_example_results
              = List.length ground_truth_files).
  { rewrite (mapM_length _ _ _ P). apply length_map. }
  assert (NE : per_example_results <> []).
  { intros ->. destruct ground_truth_files; [congruence|discriminate]. }
  destruct (average_metrics_values per_example_results NE H)
    as (result & A & K & M).
  exists result. split; [|split; [exact L|split; [exact K|]]].
  - unfold evaluate_file_folders. rewrite U, G. cbn [bind].
    rewrite (proj2 (check_Ok_iff _ _) S). cbn [bind].
    rewrite P. cbn [bind]. rewrite A. reflexivity.
  - intros metric I. destruct (M metric I) as (values & F & D).
    exists values. split; [exact F|]. rewrite D.
    unfold arithmetic_mean. now rewrite <- (Forall2_length F), L.
Qed.

(** C7. When both folders have zero examples (and there is a metric to
    average), [evaluate_file_folders] returns nothing: the list of results
    is empty and the division by its length raises [ZeroDivisionError]. *)
Theorem evaluate_file_folders_no_examples
  (fs : filesystem) (pred_folder gt_folder : string) :
  EVAL_METRIC_NAMES <> [] ->
  get_result_directory_file_names fs pred_folder false = Ok [] ->
  get_result_directory_file_names fs gt_folder true = Ok [] ->
  evaluate fs pred_folder gt_folder = Raise ZeroDivisionError.
Proof.
  intros N U G. unfold evaluate_file_folders. rewrite U, G.
  cbn [bind]. unfold average_metrics.
  destruct EVAL_METRIC_NAMES as [|metric names]; [congruence|reflexivity].
Qed.

(** C2, with the message the code builds. When the two example-name sets differ,
    [check_user_submission_file_paths] raises a [ValueError]. If some
    ground-truth example is missing from the submission, the message lists
    exactly the missing ones (names the submission has in excess are not
    listed); otherwise it lists exactly the names in excess, which are then
    the symmetric difference. [evaluate_file_folders] raises on two folders
    that validate with different example-name sets. *)
Theorem check_user_submission_file_paths_differ
  (ground_truth_files user_submission_files : dict string) :
  ~ same_keys ground_truth_files user_submission_files ->
  (exists names,
      ((exists k, only_in ground_truth_files user_submission_files k)
       /\ (forall k, In k names
                     <-> only_in ground_truth_files user_submission_files k)
       /\ check_user_submission_file_paths
            ground_truth_files user_submission_files
          = Raise (ValueError ("There are missing evaluation examples: "
                               ++ str_list names)))
      \/ ((forall k, ~ only_in ground_truth_files user_submission_files k)
          /\ symmetric_difference
               ground_truth_files user_submission_files names
          /\ check_user_submission_file_paths
               ground_truth_files user_submission_files
             = Raise (ValueError ("Unexpected submitted evaluation examples "
                                  ++ str_list names))))
  /\ (forall fs pred_folder gt_folder,
         get_result_directory_file_names fs pred_folder false
         = Ok user_submission_files ->
         get_result_directory_file_names fs gt_folder true
         = Ok ground_truth_files ->
         exists msg,
           evaluate fs pred_folder gt_folder = Raise (ValueError msg)).
Proof.
  intros D. pose proof (check_raises _ _ D) as R. split; [exact R|].
  intros fs pred_folder gt_folder U G.
  unfold evaluate_file_folders. rewrite U, G. cbn [bind].
  destruct R as [names [(_ & _ & ->)|(_ & _ & ->)]]; eexists; reflexivity.
Qed.

End EvaluateFacts.

(** What the fixture evaluates to. *)
Lemma fixture_evaluate :
  Fixture.evaluate Fixture.folders "pred" "gt"
  = Ok (Fixture.averages, Fixture.per_example_results).
Proof. vm_compute. reflexivity. Qed.

(** C1 on the two-example fixture. *)
Lemma evaluate_file_folders_mean_witness :
  exists result,
    Fixture.evaluate Fixture.folders "pred" "gt"
    = Ok (result, Fixture.per_example_results)
    /\ List.length Fixture.per_example_results
       = List.length [("a", "gt/a"); ("b", "gt/b")]
    /\ (forall metric, In metric (dict_keys result)
                       <-> In metric Fixture.metric_names)
    /\ (forall metric, In metric Fixture.metric_names ->
          exists values,
            Forall2 (fun r v => dict_get r metric = Some v)
              Fixture.per_example_results values
            /\ dict_get result metric
               = Some (Fixture.div_nat
                         (fold_left QArith_base.Qplus values Fixture.zero)
                         (List.length [("a", "gt/a"); ("b", "gt/b")]))).
Proof.
  apply (evaluate_file_folders_mean _ _ _ _ _ Fixture.load Fixture.eval
           Fixture.metric_names Fixture.folders "pred" "gt"
           [("a", "pred/a"); ("b", "pred/b")]
           [("a", "gt/a"); ("b", "gt/b")]).
  - reflexivity.
  - reflexivity.
  - intros k. reflexivity.
  - discriminate.
  - reflexivity.
  - intros r metric [<-|[<-|[]]] [<-|[<-|[]]]; reflexivity.
Defined.

(** C7 on two folders without result files. *)
Lemma evaluate_file_folders_no_examples_witness :
  Fixture.evaluate Fixture.folders "empty" "nowhere" = Raise ZeroDivisionError.
Proof.
  apply evaluate_file_folders_no_examples;
    [discriminate | reflexivity | reflexivity].
Defined.

(** C2 on the fixture's ground truth against a folder that lacks [a] and
    has [c] in excess: only [a] is listed. *)
Lemma check_user_submission_file_paths_differ_witness :
  (exists names,
      ((exists k, only_in [("a", "gt/a"); ("b", "gt/b")]
                    [("b", "partial/b"); ("c", "partial/c")] k)
       /\ (forall k, In k names
                     <-> only_in [("a", "gt/a"); ("b", "gt/b")]
                           [("b", "partial/b"); ("c", "partial/c")] k)
       /\ check_user_submission_file_paths
            [("a", "gt/a"); ("b", "gt/b")]
            [("b", "partial/b"); ("c", "partial/c")]
          = Raise (ValueError ("There are missing evaluation examples: "
                               ++ str_list names)))
      \/ ((forall k, ~ only_in [("a", "gt/a"); ("b", "gt/b")]
                       [("b", "partial/b"); ("c", "partial/c")] k)
          /\ symmetric_difference [("a", "gt/a"); ("b", "gt/b")]
               [("b", "partial/b"); ("c", "partial/c")] names
          /\ check_user_submission_file_paths
               [("a", "gt/a"); ("b", "gt/b")]
               [("b", "partial/b"); ("c", "partial/c")]
             = Raise (ValueError ("Unexpected submitted evaluation examples "
                                  ++ str_list names))))
  /\ (forall fs pred_folder gt_folder,
         get_result_directory_file_names fs pred_folder false
         = Ok [("b", "partial/b"); ("c", "partial/c")] ->
         get_result_directory_file_names fs gt_folder true
         = Ok [("a", "gt/a"); ("b", "gt/b")] ->
         exists msg,
           Fixture.evaluate fs pred_folder gt_folder
           = Raise (ValueError msg)).
Proof.
  apply (check_user_submission_file_paths_differ _ _ _ _ _
           Fixture.load Fixture.eval Fixture.metric_names).
  intros S. destruct (proj1 (S "a")) as [E|[E|[]]];
    [now left | discriminate E | discriminate E].
Defined.

(** The messages on the fixture. *)
Lemma fixture_evaluate_partial :
  Fixture.evaluate Fixture.folders "partial" "gt"
  = Raise (ValueError "There are missing evaluation examples: ['a']")
  /\ Fixture.evaluate Fixture.folders "pred" "partial"
     = Raise (ValueError "There are missing evaluation examples: ['c']").
Proof. split; vm_compute; reflexivity. Qed.

Lemma join_contains (c : ascii) (sep x : string) (l : list string) :
  In x l -> contains c x = true -> contains c (join sep l) = true.
Proof.
  intros I C. unfold join. induction l as [|y l IH]; [destruct I|].
  cbn [String.concat]. destruct l as [|z l].
  - destruct I as [->|[]]. exact C.
  - rewrite !contains_app. destruct I as [->|I].
    + now rewrite C.
    + rewrite (IH I). now rewrite !orb_true_r.
Qed.

Lemma message_lists_contains (c : ascii) (msg x : string)
  (names : list string) :
  message_lists msg names -> In x names -> contains c (repr x) = true ->
  contains c msg = true.
Proof.
  intros [text ->] I C. unfold str_list.
  rewrite !contains_app, (join_contains c ", " (repr x)).
  - now rewrite !orb_true_r.
  - now apply in_map.
  - exact C.
Qed.

(** C2 as stated fails when names are missing and others are in excess:
    with ground truth [a] and submission [b] the message lists [a] only,
    not the symmetric difference [a], [b]. *)
Lemma check_user_submission_file_paths_differ_counterexample :
  ~ same_keys [("a", "gt/a")] [("b", "pred/b")]
  /\ check_user_submission_file_paths [("a", "gt/a")] [("b", "pred/b")]
     = Raise (ValueError "There are missing evaluation examples: ['a']")
  /\ ~ (exists names,
           symmetric_difference [("a", "gt/a")] [("b", "pred/b")] names
           /\ message_lists "There are missing evaluation examples: ['a']"
                names).
Proof.
  split; [|split; [reflexivity|]].
  - intros S. destruct (proj1 (S "a")) as [E|[]]; [now left|discriminate E].
  - intros (names & S & L).
    assert (I : In "b" names).
    { apply S. right. split; [now left|]. intros [E|[]]. discriminate E. }
    pose proof (message_lists_contains "b" _ "b" names L I eq_refl) as C.
    discriminate C.
Qed.

(* ================================================================== *)
(** * Further properties of the evaluation utilities *)

(** ** The order of [sorted] *)

Section SortedFacts.

Lemma ascii_compare_refl (a : ascii) : Ascii.compare a a = Eq.
Proof. unfold Ascii.compare. apply BinNat.N.compare_refl. Qed.

Lemma ascii_compare_lt_trans (a b c : ascii) :
  Ascii.compare a b = Lt -> Ascii.compare b c = Lt -> Ascii.compare a c = Lt.
Proof.
  unfold Ascii.compare. rewrite !BinNat.N.compare_lt_iff.
  apply BinNat.N.lt_trans.
Qed.

Lemma string_compare_refl (s : string) : String.compare s s = Eq.
Proof.
  induction s as [|c s IH]; [reflexivity|].
  cbn [String.compare]. now rewrite ascii_compare_refl.
Qed.

Lemma string_compare_lt_trans (a b c : string) :
  String.compare a b = Lt -> String.compare b c = Lt ->
  String.compare a c = Lt.
Proof.
  revert b c. induction a as [|x a IH]; intros [|y b] [|z c];
    cbn [String.compare]; try discriminate; try reflexivity.
  destruct (Ascii.compare x y) eqn:XY; try discriminate;
    destruct (Ascii.compare y z) eqn:YZ; try discriminate.
  - apply Ascii.compare_eq_iff in XY, YZ. subst.
    rewrite ascii_compare_refl. apply IH.
  - apply Ascii.compare_eq_iff in XY. subst. now rewrite YZ.
  - apply Ascii.compare_eq_iff in YZ. subst. now rewrite XY.
  - now rewrite (ascii_compare_lt_trans x y z XY YZ).
Qed.

Lemma leb_cases (a b : string) :
  String.leb a b = true <-> String.compare a b = Lt \/ a = b.
Proof.
  unfold String.leb. split.
  - destruct (String.compare a b) eqn:C; try discriminate.
    + right. now apply String.compare_eq_iff.
    + now left.
  - intros [-> | ->]; [reflexivity|]. now rewrite string_compare_refl.
Qed.

Lemma name_le_trans (a b c : string) :
  name_le a b -> name_le b c -> name_le a c.
Proof.
  unfold name_le. rewrite !leb_cases. intros [AB | ->] [BC | ->]; auto.
  left. now apply (string_compare_lt_trans a b c).
Qed.

Lemma insert_sorted_StronglySorted (x : string) (l : list string) :
  StronglySorted name_le l -> StronglySorted name_le (insert_sorted x l).
Proof.
  induction 1 as [|y l S IH F]; cbn [insert_sorted].
  - constructor; constructor.
  - destruct (String.leb x y) eqn:L.
    + constructor; [now constructor|]. constructor; [exact L|].
      apply Forall_forall. intros z I.
      apply (name_le_trans x y z L). revert z I. now apply Forall_forall.
    + constructor; [exact IH|].
      apply Forall_forall. intros z I.
      apply (Permutation_in _ (insert_sorted_perm x l)) in I as [<-|I].
      * destruct (String.leb_total x y) as [T|T]; [congruence|exact T].
      * revert z I. now apply Forall_forall.
Qed.

Lemma sorted_StronglySorted (l : list string) :
  StronglySorted name_le (sorted l).
Proof.
  induction l as [|x l IH]; cbn [sorted]; [constructor|].
  now apply insert_sorted_StronglySorted.
Qed.

(** A list has one sorted arrangement. *)
Lemma StronglySorted_unique (l l' : list string) :
  StronglySorted name_le l -> StronglySorted name_le l' ->
  Permutation l l' -> l = l'.
Proof.
  intros S. revert l'. induction S as [|x l S IH F]; intros l' S' P.
  - now apply Permutation_nil in P.
  - destruct S' as [|y l' S' F'].
    + symmetry in P. now apply Permutation_nil in P.
    + assert (E : x = y).
      { assert (Ix : In x (y :: l'))
          by (apply (Permutation_in _ P); now left).
        assert (Iy : In y (x :: l))
          by (apply (Permutation_in _ (Permutation_sym P)); now left).
        destruct Ix as [->|Ix]; [reflexivity|].
        destruct Iy as [->|Iy]; [reflexivity|].
        apply String.leb_antisym.
        - exact (proj1 (Forall_forall _ _) F y Iy).
        - exact (proj1 (Forall_forall _ _) F' x Ix). }
      subst y. f_equal. apply IH; [exact S'|].
      now apply Permutation_cons_inv in P.
Qed.

Lemma sorted_permutation (l l' : list string) :
  Permutation l l' -> sorted l = sorted l'.
Proof.
  intros P. apply StronglySorted_unique; try apply sorted_StronglySorted.
  rewrite (sorted_perm l), (sorted_perm l'). exact P.
Qed.

Lemma filter_permutation {A} (f : A -> bool) (l l' : list A) :
  Permutation l l' -> Permutation (filter f l) (filter f l').
Proof.
  induction 1 as [|x l l' P IH|x y l|l l' l'' P IH P' IH']; cbn [filter].
  - constructor.
  - destruct (f x); [now constructor|exact IH].
  - destruct (f x), (f y); try reflexivity. apply perm_swap.
  - now transitivity (filter f l').
Qed.

Lemma filter_filter_implied {A} (f g : A -> bool) (l : list A) :
  (forall x, f x = true -> g x = true) ->
  filter f (filter g l) = filter f l.
Proof.
  intros H. induction l as [|x l IH]; [reflexivity|]. cbn [filter].
  destruct (g x) eqn:G; cbn [filter].
  - now rewrite IH.
  - destruct (f x) eqn:F; [|exact IH]. rewrite (H x F) in G. discriminate.
Qed.

End SortedFacts.

(* ------------------------------------------------------------------ *)
(** ** check_user_submission_file_paths, beyond the key sets *)

(** X1. [check_user_submission_file_paths] returns only when the two
    mappings have the same example names; it then also returns with its
    arguments exchanged. *)
Theorem check_user_submission_file_paths_sound
  (ground_truth_files user_submission_files : dict string) :
  check_user_submission_file_paths ground_truth_files user_submission_files
  = Ok tt ->
  same_keys ground_truth_files user_submission_files
  /\ check_user_submission_file_paths user_submission_files ground_truth_files
     = Ok tt.
Proof.
  intros H. apply check_Ok_iff in H. split; [exact H|].
  apply check_Ok_iff. intros k. symmetry. apply H.
Qed.

(** X1 on two mappings with the names [a], [b] in different orders. *)
Lemma check_user_submission_file_paths_sound_witness :
  same_keys [("a", "gt/a"); ("b", "gt/b")] [("b", "pred/b"); ("a", "pred/a")]
  /\ check_user_submission_file_paths
       [("b", "pred/b"); ("a", "pred/a")] [("a", "gt/a"); ("b", "gt/b")]
     = Ok tt.
Proof.
  apply check_user_submission_file_paths_sound. reflexivity.
Defined.

Lemma dict_contains_keys {V W} (d : dict V) (d' : dict W) (k : string) :
  dict_keys d = dict_keys d' -> dict_contains d k = dict_contains d' k.
Proof.
  intros E. pose proof (dict_contains_In d k) as H.
  pose proof (dict_contains_In d' k) as H'. rewrite E in H.
  destruct (dict_contains d k), (dict_contains d' k); try reflexivity.
  - symmetry. apply H', H. reflexivity.
  - apply H, H'. reflexivity.
Qed.

Lemma missing_gt_examples_keys (gt us gt' us' : dict string) :
  dict_keys gt = dict_keys gt' -> dict_keys us = dict_keys us' ->
  missing_gt_examples gt us = missing_gt_examples gt' us'.
Proof.
  intros G U. unfold missing_gt_examples. rewrite G.
  apply filter_ext. intros k. now rewrite (dict_contains_keys us us' k U).
Qed.

(** X2. The file paths stored in the mappings are never looked at: two
    calls whose mappings list the same example names in the same order give
    the same outcome, the same message included. *)
Theorem check_user_submission_file_paths_ignores_paths
  (ground_truth_files user_submission_files
   ground_truth_files' user_submission_files' : dict string) :
  dict_keys ground_truth_files = dict_keys ground_truth_files' ->
  dict_keys user_submission_files = dict_keys user_submission_files' ->
  check_user_submission_file_paths ground_truth_files user_submission_files
  = check_user_submission_file_paths
      ground_truth_files' user_submission_files'.
Proof.
  intros G U. rewrite !check_unfold.
  rewrite (missing_gt_examples_keys _ _ _ _ G U).
  rewrite (missing_gt_examples_keys _ _ _ _ U G).
  reflexivity.
Qed.

(** X2 on mappings that differ in every path. *)
Lemma check_user_submission_file_paths_ignores_paths_witness :
  check_user_submission_file_paths
    [("a", "gt/a"); ("c", "gt/c")] [("b", "pred/b"); ("a", "pred/a")]
  = check_user_submission_file_paths
      [("a", "x"); ("c", "y")] [("b", "z"); ("a", EmptyString)].
Proof.
  apply check_user_submission_file_paths_ignores_paths; reflexivity.
Defined.

(* ------------------------------------------------------------------ *)
(** ** get_result_directory_file_names: outcomes and order *)

Lemma dict_get_map_inv {V} (g : string -> V) (l : list string)
  (n : string) (v : V) :
  dict_get (map (fun n => (n, g n)) l) n = Some v -> In n l /\ v = g n.
Proof.
  induction l as [|m l IH]; [discriminate|]. cbn [map dict_get].
  destruct (String.eqb_spec m n) as [->|N].
  - intros [= <-]. split; [now left|reflexivity].
  - intros H. destruct (IH H) as [I E]. split; [now right|exact E].
Qed.

(** What a returned dictionary is. *)
Lemma get_result_Ok_inv
  (fs : filesystem) (result_dir : string) (has_depth_masks : bool)
  (result_files : dict string) :
  get_result_directory_file_names fs result_dir has_depth_masks
  = Ok result_files ->
  exists image_file : string -> string,
    (forall n,
        In n (example_names
                (result_type_files fs result_dir has_depth_masks)) ->
        dict_get (result_type_files fs result_dir has_depth_masks Image) n
        = Some (image_file n))
    /\ result_files
       = map (fun n =>
                (n, slice_to_neg (String.length "_image.png") (image_file n)))
           (example_names (result_type_files fs result_dir has_depth_masks)).
Proof.
  intros R.
  destruct (incomplete_items
              (result_type_files fs result_dir has_depth_masks)
              (example_names
                 (result_type_files fs result_dir has_depth_masks)))
    as [|kv l] eqn:E.
  - destruct (get_result_returns fs result_dir has_depth_masks E)
      as (image_file & G & R').
    exists image_file. split; [exact G|]. rewrite R' in R.
    now injection R as <-.
  - rewrite (get_result_raises fs result_dir has_depth_masks) in R;
      [discriminate|].
    rewrite E. discriminate.
Qed.




(** X4. The keys of a returned dictionary are in increasing lexicographic
    order, without repetition: this is the order in which
    [evaluate_file_folders] visits the examples. *)
Theorem get_result_directory_file_names_sorted
  (fs : filesystem) (result_dir : string) (has_depth_masks : bool)
  (result_files : dict string) :
  get_result_directory_file_names fs result_dir has_depth_masks
  = Ok result_files ->
  StronglySorted name_le (dict_keys result_files)
  /\ NoDup (dict_keys result_files).
Proof.
  intros R. apply get_result_Ok_inv in R as (image_file & _ & ->).
  unfold dict_keys. rewrite map_map. cbn [fst]. rewrite map_id.
  split; [apply sorted_StronglySorted | apply example_names_NoDup].
Qed.

(** X4 on the ground-truth layout, listed out of order. *)
Lemma get_result_directory_file_names_sorted_witness :
  StronglySorted name_le (dict_keys [("a", "gt/a"); ("b", "gt/b")])
  /\ NoDup (dict_keys [("a", "gt/a"); ("b", "gt/b")]).
Proof.
  apply (get_result_directory_file_names_sorted
           (fs_of [("gt", gt_listing)]) "gt" true).
  reflexivity.
Defined.

(* ------------------------------------------------------------------ *)
(** ** get_result_directory_file_names: what the result depends on *)

Lemma mapM_ext {A B} (f g : A -> result B) (l : list A) :
  (forall x, f x = g x) -> mapM f l = mapM g l.
Proof.
  intros H. induction l as [|x l IH]; [reflexivity|].
  cbn [mapM]. now rewrite H, IH.
Qed.

Lemma example_names_ext (rtf rtf' : result_type -> dict string) :
  (forall t, rtf t = rtf' t) -> example_names rtf = example_names rtf'.
Proof.
  intros H. unfold example_names, result_types. cbn [flat_map].
  now rewrite !H.
Qed.

Lemma missing_examples_ext (rtf rtf' : result_type -> dict string)
  (names : list string) :
  (forall t, rtf t = rtf' t) ->
  missing_examples rtf names = missing_examples rtf' names.
Proof.
  intros H. unfold missing_examples. generalize (@nil (string * list result_type)).
  induction names as [|n names IH]; intros d; [reflexivity|].
  cbn [fold_left]. rewrite <- IH. f_equal.
  unfold result_types. cbn [fold_left]. now rewrite !H.
Qed.

(** The function reads the file system through the three dictionaries
    only. *)
Lemma get_result_ext
  (fs fs' : filesystem) (result_dir result_dir' : string)
  (has_depth_masks has_depth_masks' : bool) :
  (forall t, result_type_files fs result_dir has_depth_masks t
             = result_type_files fs' result_dir' has_depth_masks' t) ->
  get_result_directory_file_names fs result_dir has_depth_masks
  = get_result_directory_file_names fs' result_dir' has_depth_masks'.
Proof.
  intros H. unfold get_result_directory_file_names.
  rewrite (example_names_ext _ _ H).
  rewrite (missing_examples_ext _ _ _ H).
  destruct (0 <? List.length _)%nat; [reflexivity|].
  f_equal. apply mapM_ext. intros n. now rewrite H.
Qed.

Lemma filter_andb {A} (f g : A -> bool) (l : list A) :
  filter f (filter g l) = filter (fun x => g x && f x) l.
Proof.
  induction l as [|x l IH]; [reflexivity|]. cbn [filter].
  destruct (g x); cbn [filter andb]; [|exact IH].
  destruct (f x); now rewrite IH.
Qed.

Lemma filter_id {A} (f : A -> bool) (l : list A) :
  (forall x, In x l -> f x = true) -> filter f l = l.
Proof.
  induction l as [|x l IH]; intros H; [reflexivity|]. cbn [filter].
  rewrite (H x (or_introl eq_refl)). f_equal. apply IH.
  intros y I. apply H. now right.
Qed.

Lemma result_file_postfix (t : result_type) (x : string) :
  negb (ishidden x) && endswith x (postfix t) = true -> result_file x = true.
Proof.
  unfold result_file, result_types. cbn [existsb].
  destruct (negb (ishidden x)); [|discriminate]. cbn [andb].
  destruct t; intros ->; cbn [orb]; rewrite ?orb_true_r; reflexivity.
Qed.

(** X5. For a directory named without wildcards, the outcome depends only
    on which visible [*_image.png], [*_mask.png] and [*_depth.png] entries
    the directory has: neither the order in which the system lists the
    entries nor any other file changes the returned dictionary or the
    error message. *)
Theorem get_result_directory_file_names_result_files_only
  (fs fs' : filesystem) (result_dir : string) (has_depth_masks : bool) :
  has_magic result_dir = false ->
  Permutation (filter result_file (entries fs result_dir))
              (filter result_file (entries fs' result_dir)) ->
  get_result_directory_file_names fs result_dir has_depth_masks
  = get_result_directory_file_names fs' result_dir has_depth_masks.
Proof.
  intros M P. apply get_result_ext. intros t. unfold result_type_files.
  rewrite (glob_result_dir fs result_dir t M).
  rewrite (glob_result_dir fs' result_dir t M).
  rewrite !filter_andb.
  rewrite <- (filter_filter_implied _ result_file (entries fs result_dir)
                (result_file_postfix t)).
  rewrite <- (filter_filter_implied _ result_file (entries fs' result_dir)
                (result_file_postfix t)).
  rewrite (sorted_permutation _ _
             (Permutation_map (glob_path result_dir)
                (filter_permutation _ _ _ P))).
  reflexivity.
Qed.

(** X5 on the ground-truth layout: the same files in another order, the
    dot-file gone and a text file added. *)
Lemma get_result_directory_file_names_result_files_only_witness :
  get_result_directory_file_names (fs_of [("gt", gt_listing)]) "gt" true
  = get_result_directory_file_names
      (fs_of [("gt", ["a_depth.png"; "a_depth_mask.png"; "a_image.png";
                      "a_mask.png"; "readme.txt"; "b_depth.png";
                      "b_depth_mask.png"; "b_image.png"; "b_mask.png"])])
      "gt" true.
Proof.
  apply get_result_directory_file_names_result_files_only; [reflexivity|].
  change (Permutation
            ["b_mask.png"; "a_image.png"; "a_depth_mask.png"; "b_depth.png";
             "a_mask.png"; "b_image.png"; "a_depth.png"; "b_depth_mask.png"]
            ["a_depth.png"; "a_depth_mask.png"; "a_image.png"; "a_mask.png";
             "b_depth.png"; "b_depth_mask.png"; "b_image.png"; "b_mask.png"]).
  rewrite <- (sorted_perm ["b_mask.png"; "a_image.png"; "a_depth_mask.png";
                           "b_depth.png"; "a_mask.png"; "b_image.png";
                           "a_depth.png"; "b_depth_mask.png"]).
  reflexivity.
Defined.

(** X6. For a directory (named without wildcards, its entries plain names)
    with no entry ending in "_depth_mask.png", the flag [has_depth_masks]
    makes no difference. *)
Theorem get_result_directory_file_names_flag_irrelevant
  (fs : filesystem) (result_dir : string) :
  has_magic result_dir = false ->
  plain_entries fs result_dir ->
  (forall x, In x (entries fs result_dir) ->
             endswith x "_depth_mask.png" = false) ->
  get_result_directory_file_names fs result_dir true
  = get_result_directory_file_names fs result_dir false.
Proof.
  intros M P D. apply get_result_ext. intros t. unfold result_type_files.
  destruct (true && is_mask t); [|reflexivity].
  cbn [andb]. f_equal. apply filter_id. intros f I.
  rewrite sorted_In, (glob_result_dir fs result_dir t M) in I.
  apply in_map_iff in I as (x & <- & I).
  apply filter_In in I as [I _]. apply filter_In in I as [I _].
  rewrite (glob_path_endswith result_dir x "_depth_mask.png" (P x I) eq_refl).
  now rewrite (D x I).
Qed.

(** X6 on the prediction folder of the fixture. *)
Lemma get_result_directory_file_names_flag_irrelevant_witness :
  get_result_directory_file_names (fs_of [("pred", pred_listing)]) "pred" true
  = get_result_directory_file_names
      (fs_of [("pred", pred_listing)]) "pred" false.
Proof.
  apply get_result_directory_file_names_flag_irrelevant.
  - reflexivity.
  - intros x I. cbv in I.
    repeat (destruct I as [<-|I]; [reflexivity|]). destruct I.
  - intros x I. cbv in I.
    repeat (destruct I as [<-|I]; [reflexivity|]). destruct I.
Defined.

(** X7. In a returned dictionary (directory named without wildcards, its
    entries plain names) the last path component of the value of an
    example is the example name, and the value followed by "_image.png" is
    the path of a listed image file; so no two examples share a root
    path. *)
Theorem get_result_directory_file_names_root_paths
  (fs : filesystem) (result_dir : string) (has_depth_masks : bool)
  (result_files : dict string) (n root : string) :
  has_magic result_dir = false ->
  plain_entries fs result_dir ->
  get_result_directory_file_names fs result_dir has_depth_masks
  = Ok result_files ->
  dict_get result_files n = Some root ->
  snd (PosixPath.split root) = n
  /\ In (n ++ "_image.png") (entries fs result_dir)
  /\ root ++ "_image.png" = glob_path result_dir (n ++ "_image.png")
  /\ (forall n', dict_get result_files n' = Some root -> n' = n).
Proof.
  intros M P R G.
  apply get_result_Ok_inv in R as (image_file & F & ->).
  assert (K : forall m v,
             dict_get
               (map (fun n => (n, slice_to_neg (String.length "_image.png")
                                    (image_file n)))
                  (example_names
                     (result_type_files fs result_dir has_depth_masks))) m
             = Some v ->
             In (m ++ "_image.png") (entries fs result_dir)
             /\ v = glob_path result_dir m
             /\ snd (PosixPath.split v) = m).
  { intros m v Gm. apply dict_get_map_inv in Gm as [I ->].
    specialize (F m I).
    assert (C : dict_contains
                  (result_type_files fs result_dir has_depth_masks Image) m
                = true) by (unfold dict_contains; now rewrite F).
    apply (rtf_contains fs result_dir has_depth_masks M P) in C as [E _].
    apply (rtf_get fs result_dir has_depth_masks M P) in F.
    unfold has_file in E. change (postfix Image) with "_image.png" in *.
    pose proof (P _ E) as S. split; [exact E|].
    rewrite F, (glob_path_app result_dir m "_image.png" S).
    rewrite (slice_to_neg_app (glob_path result_dir m) "_image.png").
    split; [reflexivity|]. apply glob_path_basename.
    rewrite slash_free_app in S. now apply andb_true_iff in S as [S _]. }
  destruct (K n root G) as (E & V & B).
  split; [exact B|]. split; [exact E|]. split.
  - rewrite V. symmetry. apply glob_path_app. exact (P _ E).
  - intros n' G'. destruct (K n' root G') as (_ & _ & B'). congruence.
Qed.

(** X7 on the ground-truth layout, example [b]. *)
Lemma get_result_directory_file_names_root_paths_witness :
  snd (PosixPath.split "gt/b") = "b"
  /\ In ("b" ++ "_image.png") (entries (fs_of [("gt", gt_listing)]) "gt")
  /\ "gt/b" ++ "_image.png" = glob_path "gt" ("b" ++ "_image.png")
  /\ (forall n',
         dict_get [("a", "gt/a"); ("b", "gt/b")] n' = Some "gt/b" -> n' = "b").
Proof.
  apply (get_result_directory_file_names_root_paths
           (fs_of [("gt", gt_listing)]) "gt" true).
  - reflexivity.
  - intros x I. cbv in I.
    repeat (destruct I as [<-|I]; [reflexivity|]). destruct I.
  - reflexivity.
  - reflexivity.
Defined.

(* ------------------------------------------------------------------ *)
(** ** evaluate_file_folders: what a returned result is *)

Lemma mapM_Forall2 {A B} (f : A -> result B) (l : list A) (ys : list B) :
  mapM f l = Ok ys -> Forall2 (fun x y => f x = Ok y) l ys.
Proof.
  revert ys. induction l as [|x l IH]; intros ys; cbn [mapM].
  - intros [= <-]. constructor.
  - destruct (f x) as [y|] eqn:E; [|discriminate]. cbn [bind].
    destruct (mapM f l) as [zs|]; [|discriminate]. cbn [bind].
    intros [= <-]. constructor; [exact E|]. now apply IH.
Qed.

Lemma Forall2_In_l {A B} (R : A -> B -> Prop) (l : list A) (l' : list B)
  (x : A) :
  Forall2 R l l' -> In x l -> exists y, In y l' /\ R x y.
Proof.
  induction 1 as [|a b l l' H F IH]; [intros []|].
  intros [<-|I].
  - exists b. split; [now left|exact H].
  - destruct (IH I) as (y & J & Q). exists y. split; [now right|exact Q].
Qed.

Lemma Forall2_In_r {A B} (R : A -> B -> Prop) (l : list A) (l' : list B)
  (y : B) :
  Forall2 R l l' -> In y l' -> exists x, In x l /\ R x y.
Proof.
  induction 1 as [|a b l l' H F IH]; [intros []|].
  intros [<-|I].
  - exists a. split; [now left|exact H].
  - destruct (IH I) as (x & J & Q). exists x. split; [now right|exact Q].
Qed.

Section EvaluateReturns.

Variable num : Type.
Variable num0 : num.
Variable num_add : num -> num -> num.
Variable num_div : num -> nat -> num.
Variable frame : Type.
Variable load_rgbda_frame : string -> result frame.
Variable eval_one : frame -> frame -> result (dict num).
Variable EVAL_METRIC_NAMES : list string.

Local Abbreviation evaluate :=
  (evaluate_file_folders num num0 num_add num_div frame
     load_rgbda_frame eval_one EVAL_METRIC_NAMES).

Lemma sum_metric_raise (metric : string) (rs : list (dict num)) (e : exn) :
  fold_left
    (fun acc r => a <- acc ;; v <- dict_getitem r metric ;; Ok (num_add a v))
    rs (Raise e)
  = Raise e.
Proof. induction rs as [|r rs IH]; [reflexivity|exact IH]. Qed.

Lemma sum_metric_inv (metric : string) (rs : list (dict num)) (s : num) :
  sum_metric num num0 num_add metric rs = Ok s ->
  exists values,
    Forall2 (fun r v => dict_get r metric = Some v) rs values
    /\ s = fold_left num_add values num0.
Proof.
  unfold sum_metric. generalize num0.
  induction rs as [|r rs IH]; intros a.
  - intros [= <-]. exists []. split; [constructor|reflexivity].
  - cbn [fold_left bind].
    destruct (dict_getitem r metric) as [v|e] eqn:G; cbn [bind].
    + intros H. destruct (IH _ H) as (values & F & ->).
      apply dict_getitem_Ok in G.
      exists (v :: values). split; [now constructor|reflexivity].
    + rewrite sum_metric_raise. discriminate.
Qed.

Lemma metric_values_unique (rs : list (dict num)) (metric : string)
  (values values' : list num) :
  Forall2 (fun r v => dict_get r metric = Some v) rs values ->
  Forall2 (fun r v => dict_get r metric = Some v) rs values' ->
  values = values'.
Proof.
  intros F. revert values'.
  induction F as [|r v l vs G F IH]; intros values' F'.
  - inversion F'. reflexivity.
  - inversion F' as [|r' v' l' vs' G' F'' E1 E2]. subst.
    f_equal; [congruence|now apply IH].
Qed.

(** What the averaging step returns, when it returns. *)
Lemma average_metrics_inv (rs : list (dict num)) (result : dict num) :
  average_metrics num num0 num_add num_div EVAL_METRIC_NAMES rs = Ok result ->
  (forall metric, In metric (dict_keys result)
                  <-> In metric EVAL_METRIC_NAMES)
  /\ (forall metric, In metric EVAL_METRIC_NAMES ->
        rs <> []
        /\ exists values,
             Forall2 (fun r v => dict_get r metric = Some v) rs values
             /\ dict_get result metric
                = Some (num_div (fold_left num_add values num0)
                          (List.length rs))).
Proof.
  unfold average_metrics.
  destruct (mapM _ EVAL_METRIC_NAMES) as [metrics|] eqn:M; [|discriminate].
  cbn [bind]. intros [= <-]. apply mapM_Forall2 in M.
  assert (Q : forall metric kv,
             (s <- sum_metric num num0 num_add metric rs ;;
              m <- truediv num num_div s (List.length rs) ;;
              Ok (metric, m)) = Ok kv ->
             rs <> []
             /\ exists values,
                  Forall2 (fun r v => dict_get r metric = Some v) rs values
                  /\ kv = (metric,
                           num_div (fold_left num_add values num0)
                             (List.length rs))).
  { intros metric kv H.
    destruct (sum_metric num num0 num_add metric rs) as [s|] eqn:S;
      [|discriminate].
    cbn [bind] in H. apply sum_metric_inv in S as (values & F & ->).
    destruct rs as [|r rs']; [discriminate|]. split; [discriminate|].
    exists values. split; [exact F|].
    cbn [truediv bind List.length] in H |- *. congruence. }
  pose proof (metric_values_unique rs) as U.
  split.
  - intros metric. rewrite <- dict_contains_In, dict_comprehension_contains.
    split.
    + intros (kv & I & <-).
      destruct (Forall2_In_r _ _ _ _ M I) as (m & J & H).
      destruct (Q m kv H) as (_ & values & _ & ->). exact J.
    + intros I. destruct (Forall2_In_l _ _ _ _ M I) as (kv & J & H).
      exists kv. split; [exact J|].
      now destruct (Q metric kv H) as (_ & values & _ & ->).
  - intros metric I. destruct (Forall2_In_l _ _ _ _ M I) as (kv & J & H).
    destruct (Q metric kv H) as (N & values & F & ->).
    split; [exact N|]. exists values. split; [exact F|].
    apply (dict_comprehension_get_In (fun kv => kv) metrics
             (metric, num_div (fold_left num_add values num0)
                        (List.length rs))); [|exact J].
    intros kv' J' E.
    destruct (Forall2_In_r _ _ _ _ M J') as (m & _ & H').
    destruct (Q m kv' H') as (_ & values' & F' & ->).
    cbn [fst snd] in *. subst m. now rewrite (U metric values values' F F').
Qed.

(** X8. When [evaluate_file_folders] returns, both folders validated with
    the same example names, and the list of per-example results holds, for
    the ground-truth examples in their sorted order, what [eval_one]
    returned on the frame loaded from the ground-truth root path and the
    frame loaded from the prediction root path of that same example. *)
Theorem evaluate_file_folders_per_example
  (fs : filesystem) (pred_folder gt_folder : string)
  (result : dict num) (per_example_results : list (dict num)) :
  evaluate fs pred_folder gt_folder = Ok (result, per_example_results) ->
  exists user_submission_files ground_truth_files,
    get_result_directory_file_names fs pred_folder false
    = Ok user_submission_files
    /\ get_result_directory_file_names fs gt_folder true
       = Ok ground_truth_files
    /\ same_keys ground_truth_files user_submission_files
    /\ Forall2
         (fun gt_example r =>
            exists gt_path pred_path gt pred,
              dict_get ground_truth_files gt_example = Some gt_path
              /\ dict_get user_submission_files gt_example = Some pred_path
              /\ load_rgbda_frame gt_path = Ok gt
              /\ load_rgbda_frame pred_path = Ok pred
              /\ eval_one gt pred = Ok r)
         (dict_keys ground_truth_files) per_example_results.
Proof.
  unfold evaluate_file_folders.
  destruct (get_result_directory_file_names fs pred_folder false)
    as [us|]; [|discriminate]. cbn [bind].
  destruct (get_result_directory_file_names fs gt_folder true)
    as [g|]; [|discriminate]. cbn [bind].
  destruct (check_user_submission_file_paths g us) as [[]|] eqn:C;
    [|discriminate]. cbn [bind].
  destruct (mapM _ (dict_keys g)) as [rs|] eqn:P; [|discriminate].
  cbn [bind].
  destruct (average_metrics _ _ _ _ _ rs) as [res|]; [|discriminate].
  cbn [bind]. intros [= <- <-].
  exists us, g. split; [reflexivity|]. split; [reflexivity|].
  split; [now apply check_Ok_iff|].
  apply mapM_Forall2 in P. revert P. apply Forall2_impl.
  intros ex r. unfold eval_example, dict_getitem.
  destruct (dict_get g ex) as [gt_path|]; [|discriminate]. cbn [bind].
  destruct (load_rgbda_frame gt_path) as [gt|] eqn:L; [|discriminate].
  cbn [bind].
  destruct (dict_get us ex) as [pred_path|]; [|discriminate]. cbn [bind].
  destruct (load_rgbda_frame pred_path) as [pred|] eqn:L'; [|discriminate].
  cbn [bind]. intros E.
  exists gt_path, pred_path, gt, pred. repeat split; assumption.
Qed.

(** X9. When [evaluate_file_folders] returns, the keys of the averages are
    exactly the names of [EVAL_METRIC_NAMES], and for each of them there
    was at least one example, every per-example result has the metric, and
    the average is the sum of these values divided by their number: no
    metric is averaged over zero examples and none is left out. *)
Theorem evaluate_file_folders_returns_means
  (fs : filesystem) (pred_folder gt_folder : string)
  (result : dict num) (per_example_results : list (dict num)) :
  evaluate fs pred_folder gt_folder = Ok (result, per_example_results) ->
  (forall metric, In metric (dict_keys result)
                  <-> In metric EVAL_METRIC_NAMES)
  /\ (forall metric, In metric EVAL_METRIC_NAMES ->
        per_example_results <> []
        /\ exists values,
             Forall2 (fun r v => dict_get r metric = Some v)
               per_example_results values
             /\ dict_get result metric
                = Some (num_div (fold_left num_add values num0)
                          (List.length per_example_results))).
Proof.
  unfold evaluate_file_folders.
  destruct (get_result_directory_file_names fs pred_folder false)
    as [us|]; [|discriminate]. cbn [bind].
  destruct (get_result_directory_file_names fs gt_folder true)
    as [g|]; [|discriminate]. cbn [bind].
  destruct (check_user_submission_file_paths g us) as [[]|];
    [|discriminate]. cbn [bind].
  destruct (mapM _ (dict_keys g)) as [rs|]; [|discriminate].
  cbn [bind].
  destruct (average_metrics _ _ _ _ _ rs) as [res|] eqn:A; [|discriminate].
  cbn [bind]. intros [= <- <-]. now apply average_metrics_inv.
Qed.

End EvaluateReturns.

(** X8 on the two-example fixture. *)
Lemma evaluate_file_folders_per_example_witness :
  exists user_submission_files ground_truth_files,
    get_result_directory_file_names Fixture.folders "pred" false
    = Ok user_submission_files
    /\ get_result_directory_file_names Fixture.folders "gt" true
       = Ok ground_truth_files
    /\ same_keys ground_truth_files user_submission_files
    /\ Forall2
         (fun gt_example r =>
            exists gt_path pred_path gt pred,
              dict_get ground_truth_files gt_example = Some gt_path
              /\ dict_get user_submission_files gt_example = Some pred_path
              /\ Fixture.load gt_path = Ok gt
              /\ Fixture.load pred_path = Ok pred
              /\ Fixture.eval gt pred = Ok r)
         (dict_keys ground_truth_files) Fixture.per_example_results.
Proof.
  apply (evaluate_file_folders_per_example _ Fixture.zero
           QArith_base.Qplus Fixture.div_nat _ Fixture.load Fixture.eval
           Fixture.metric_names Fixture.folders "pred" "gt"
           Fixture.averages).
  vm_compute. reflexivity.
Defined.

(** X9 on the two-example fixture. *)
Lemma evaluate_file_folders_returns_means_witness :
  (forall metric, In metric (dict_keys Fixture.averages)
                  <-> In metric Fixture.metric_names)
  /\ (forall metric, In metric Fixture.metric_names ->
        Fixture.per_example_results <> []
        /\ exists values,
             Forall2 (fun r v => dict_get r metric = Some v)
               Fixture.per_example_results values
             /\ dict_get Fixture.averages metric
                = Some (Fixture.div_nat
                          (fold_left QArith_base.Qplus values Fixture.zero)
                          (List.length Fixture.per_example_results))).
Proof.
  apply (evaluate_file_folders_returns_means _ _ _ _ _
           Fixture.load Fixture.eval Fixture.metric_names
           Fixture.folders "pred" "gt").
  vm_compute. reflexivity.
Defined.

(* ------------------------------------------------------------------ *)
(** ** get_co3d_sequence_set_from_subset_name *)

Section SequenceSetFacts.

Variable CO3DSequenceSet : Type.
Variable CO3DSequenceSet_of_value : string -> result CO3DSequenceSet.

Local Abbreviation sequence_set_of :=
  (get_co3d_sequence_set_from_subset_name
     CO3DSequenceSet CO3DSequenceSet_of_value).

Lemma str_split_cons (sep : ascii) (s : string) :
  exists f l, str_split s sep = f :: l.
Proof.
  induction s as [|c s (f & l & E)]; cbn [str_split].
  - now exists EmptyString, [].
  - destruct (Ascii.eqb c sep); [now eexists; eexists|].
    rewrite E. now eexists; eexists.
Qed.

Lemma str_split_no_sep (sep : ascii) (s : string) :
  contains sep s = false -> str_split s sep = [s].
Proof.
  induction s as [|c s IH]; [reflexivity|]. cbn [contains str_split].
  rewrite Ascii.eqb_sym. destruct (Ascii.eqb c sep); [discriminate|].
  cbn [orb]. intros H. now rewrite (IH H).
Qed.

Lemma str_split_app (sep : ascii) (p rest : string) :
  contains sep p = false ->
  str_split (p ++ String sep rest) sep = p :: str_split rest sep.
Proof.
  induction p as [|c p IH].
  - intros _. cbn [append str_split]. now rewrite Ascii.eqb_refl.
  - cbn [contains]. rewrite Ascii.eqb_sym.
    destruct (Ascii.eqb c sep) eqn:E; [discriminate|]. cbn [orb].
    intros H. change (String c p ++ String sep rest)
                with (String c (p ++ String sep rest)).
    cbn [str_split]. now rewrite E, (IH H).
Qed.

Lemma str_split_sep (sep : ascii) (s : string) :
  contains sep s = true -> exists f g l, str_split s sep = f :: g :: l.
Proof.
  induction s as [|c s IH]; [discriminate|]. cbn [contains str_split].
  rewrite Ascii.eqb_sym. destruct (Ascii.eqb c sep); cbn [orb].
  - intros _. destruct (str_split_cons sep s) as (g & l & ->).
    now exists EmptyString, g, l.
  - intros H. destruct (IH H) as (f & g & l & ->).
    now exists (String c f), g, l.
Qed.

(** X10. [get_co3d_sequence_set_from_subset_name] raises [IndexError]
    exactly on the subset names without an underscore; on every other name
    it looks up in [CO3DSequenceSet] the text between the first underscore
    and the second one (or the end), whatever precedes and follows: the
    name of the task and the trailing index play no part. *)
Theorem get_co3d_sequence_set_from_subset_name_field :
  (forall subset_name,
      sequence_set_of subset_name = IndexError
      <-> contains "_" subset_name = false)
  /\ (forall task value rest,
         contains "_" task = false ->
         contains "_" value = false ->
         sequence_set_of (task ++ "_" ++ value)
         = match CO3DSequenceSet_of_value value with
           | Ok sequence_set => Returned sequence_set
           | Raise e => Raised e
           end
         /\ sequence_set_of (task ++ "_" ++ value ++ "_" ++ rest)
            = sequence_set_of (task ++ "_" ++ value)).
Proof.
  split.
  - intros s. unfold get_co3d_sequence_set_from_subset_name. split.
    + destruct (contains "_" s) eqn:C; [|reflexivity].
      destruct (str_split_sep _ _ C) as (f & g & l & ->). cbn [nth_error].
      destruct (CO3DSequenceSet_of_value g); discriminate.
    + intros C. now rewrite (str_split_no_sep _ _ C).
  - intros task value rest T V.
    unfold get_co3d_sequence_set_from_subset_name.
    change (task ++ "_" ++ value) with (task ++ String "_" value).
    change (task ++ "_" ++ value ++ "_" ++ rest)
      with (task ++ String "_" (value ++ String "_" rest)).
    rewrite !(str_split_app _ task _ T), (str_split_app _ value _ V).
    rewrite (str_split_no_sep _ _ V). split; reflexivity.
Qed.

End SequenceSetFacts.

(** X10 on the names of the challenge, with an enumeration of two members
    looked up by the values "dev" and "test". *)
Lemma get_co3d_sequence_set_from_subset_name_examples :
  get_co3d_sequence_set_from_subset_name bool
    (fun v => if v =? "dev" then Ok true
              else if v =? "test" then Ok false
              else Raise (ValueError v)) "manyview_dev_0" = Returned true
  /\ get_co3d_sequence_set_from_subset_name bool
       (fun v => if v =? "dev" then Ok true
                 else if v =? "test" then Ok false
                 else Raise (ValueError v)) "fewview_test" = Returned false
  /\ get_co3d_sequence_set_from_subset_name bool
       (fun v => if v =? "dev" then Ok true
                 else if v =? "test" then Ok false
                 else Raise (ValueError v)) "fewview" = IndexError
  /\ get_co3d_sequence_set_from_subset_name bool
       (fun v => if v =? "dev" then Ok true
                 else if v =? "test" then Ok false
                 else Raise (ValueError v)) "dev_manyview"
     = Raised (ValueError "manyview").
Proof. repeat split. Qed.

(* ------------------------------------------------------------------ *)
(** ** The order of the lines of the incompleteness message *)




(* ------------------------------------------------------------------ *)
(** ** Depth masks: the calls of evaluate_file_folders *)

Lemma append_inj_r (p q a b : string) :
  String.length a = String.length b -> p ++ a = q ++ b -> a = b.
Proof.
  intros L. revert q. induction p as [|c p IH]; intros [|d q] E.
  - exact E.
  - apply (f_equal String.length) in E. cbn [append String.length] in E.
    rewrite length_append in E. lia.
  - apply (f_equal String.length) in E. cbn [append String.length] in E.
    rewrite length_append in E. lia.
  - cbn [append] in E. injection E as _ E. now apply (IH q).
Qed.

(** Two endings of one string agree on their common length. *)
Lemma endswith_tails (x a s b s' : string) :
  endswith x (a ++ s) = true -> endswith x (b ++ s') = true ->
  String.length s = String.length s' -> s = s'.
Proof.
  intros A B L. apply endswith_inv in A as [p ->].
  apply endswith_inv in B as [q E].
  rewrite <- !append_assoc in E. exact (append_inj_r _ _ _ _ L E).
Qed.

Lemma no_depth_mask_postfix (t : result_type) (x : string) :
  is_mask t = false -> endswith x (postfix t) = true ->
  no_depth_mask x = true.
Proof.
  intros T E. unfold no_depth_mask.
  destruct (endswith x "_depth_mask.png") eqn:D; [|reflexivity].
  destruct t; [| discriminate T |].
  - pose proof (endswith_tails x "_imag" "e.png" "_depth_mas" "k.png" E D
                  eq_refl) as H.
    discriminate H.
  - pose proof (endswith_tails x "_dept" "h.png" "_depth_mas" "k.png" E D
                  eq_refl) as H.
    discriminate H.
Qed.

Lemma filter_comm {A} (f g : A -> bool) (l : list A) :
  filter f (filter g l) = filter g (filter f l).
Proof.
  rewrite !filter_andb. apply filter_ext. intros x. apply andb_comm.
Qed.

Lemma filter_map_in {A B} (p : B -> bool) (q : A -> bool) (f : A -> B)
  (l : list A) :
  (forall x, In x l -> p (f x) = q x) ->
  filter p (map f l) = map f (filter q l).
Proof.
  induction l as [|x l IH]; intros H; [reflexivity|].
  cbn [map filter]. rewrite (H x (or_introl eq_refl)).
  rewrite IH by (intros y I; apply H; now right).
  now destruct (q x).
Qed.

Lemma StronglySorted_filter (p : string -> bool) (l : list string) :
  StronglySorted name_le l -> StronglySorted name_le (filter p l).
Proof.
  induction 1 as [|x l S IH F]; cbn [filter]; [constructor|].
  destruct (p x); [|exact IH]. constructor; [exact IH|].
  apply Forall_forall. intros y I. apply filter_In in I as [I _].
  exact (proj1 (Forall_forall _ _) F y I).
Qed.

(** Filtering a sorted list is sorting the filtered list. *)
Lemma filter_sorted (p : string -> bool) (l : list string) :
  filter p (sorted l) = sorted (filter p l).
Proof.
  apply StronglySorted_unique.
  - apply StronglySorted_filter, sorted_StronglySorted.
  - apply sorted_StronglySorted.
  - rewrite (sorted_perm (filter p l)).
    apply filter_permutation, sorted_perm.
Qed.

Lemma dict_keys_map {V} (g : string -> V) (l : list string) :
  dict_keys (map (fun n => (n, g n)) l) = l.
Proof. unfold dict_keys. rewrite map_map. cbn [fst]. apply map_id. Qed.

(** A returned dictionary has the sorted example names as its keys, and
    every one of them is in each of the three dictionaries. *)
Lemma get_result_Ok_complete
  (fs : filesystem) (result_dir : string) (has_depth_masks : bool)
  (result_files : dict string) :
  get_result_directory_file_names fs result_dir has_depth_masks
  = Ok result_files ->
  dict_keys result_files
  = example_names (result_type_files fs result_dir has_depth_masks)
  /\ (forall n t,
         In n (dict_keys result_files) ->
         dict_contains (result_type_files fs result_dir has_depth_masks t) n
         = true).
Proof.
  intros R.
  set (rtf := result_type_files fs result_dir has_depth_masks) in *.
  destruct (incomplete_items rtf (example_names rtf)) as [|kv l] eqn:E.
  - destruct (get_result_returns fs result_dir has_depth_masks E)
      as (image_file & _ & R').
    fold rtf in R'. rewrite R' in R. injection R as <-.
    rewrite dict_keys_map.
    split; [reflexivity|]. intros n t I.
    pose proof (proj1 (incomplete_items_nil rtf _) E n I) as Q.
    destruct (dict_contains (rtf t) n) eqn:C; [reflexivity|].
    apply missing_types_In in C. rewrite Q in C. destruct C.
  - rewrite (get_result_raises fs result_dir has_depth_masks) in R
      by (fold rtf; rewrite E; discriminate).
    discriminate.
Qed.

(** With the flag set, the three dictionaries of a directory are those of
    the directory without its depth masks, whatever the flag there. *)
Lemma result_type_files_without_depth_masks
  (fs fs' : filesystem) (result_dir : string) (flag : bool)
  (t : result_type) :
  has_magic result_dir = false ->
  plain_entries fs result_dir ->
  entries fs' result_dir = filter no_depth_mask (entries fs result_dir) ->
  result_type_files fs result_dir true t
  = result_type_files fs' result_dir flag t.
Proof.
  intros M P E. unfold result_type_files.
  rewrite (glob_result_dir fs result_dir t M).
  rewrite (glob_result_dir fs' result_dir t M), E.
  set (e := entries fs result_dir) in *.
  destruct (is_mask t) eqn:T; cbn [andb].
  - set (L := filter (fun x => endswith x (postfix t))
                (filter (fun x => negb (ishidden x)) e)).
    assert (L' : filter (fun x => endswith x (postfix t))
                   (filter (fun x => negb (ishidden x))
                      (filter no_depth_mask e))
                 = filter no_depth_mask L).
    { unfold L.
      rewrite (filter_comm (fun x => negb (ishidden x)) no_depth_mask).
      now rewrite (filter_comm (fun x => endswith x (postfix t))
                     no_depth_mask). }
    rewrite L'.
    assert (N : forall l, (forall x, In x l -> In x e) ->
                filter (fun f => negb (endswith f "_depth_mask.png"))
                  (sorted (map (glob_path result_dir) l))
                = sorted (map (glob_path result_dir)
                            (filter no_depth_mask l))).
    { intros l H. rewrite filter_sorted. f_equal.
      apply filter_map_in. intros x I. unfold no_depth_mask.
      now rewrite (glob_path_endswith result_dir x "_depth_mask.png"
                     (P x (H x I)) eq_refl). }
    assert (I : forall x, In x L -> In x e).
    { intros x J. unfold L in J. apply filter_In in J as [J _].
      now apply filter_In in J as [J _]. }
    rewrite (N L I). f_equal. destruct flag; [|reflexivity].
    rewrite N by (intros x J; apply filter_In in J as [J _]; now apply I).
    now rewrite (filter_filter_implied no_depth_mask no_depth_mask).
  - rewrite andb_false_r. f_equal. f_equal. f_equal.
    rewrite (filter_andb (fun x => endswith x (postfix t))
               (fun x => negb (ishidden x)) e).
    rewrite (filter_andb (fun x => endswith x (postfix t))
               (fun x => negb (ishidden x)) (filter no_depth_mask e)).
    symmetry. apply filter_filter_implied.
    intros x H. apply andb_true_iff in H as [_ H].
    exact (no_depth_mask_postfix t x T H).
Qed.

Section DepthMaskCalls.

Variable num : Type.
Variable num0 : num.
Variable num_add : num -> num -> num.
Variable num_div : num -> nat -> num.
Variable frame : Type.
Variable load_rgbda_frame : string -> result frame.
Variable eval_one : frame -> frame -> result (dict num).
Variable EVAL_METRIC_NAMES : list string.

Local Abbreviation evaluate :=
  (evaluate_file_folders num num0 num_add num_div frame
     load_rgbda_frame eval_one EVAL_METRIC_NAMES).

(** C5. [evaluate_file_folders] reads the prediction folder with
    [has_depth_masks=False] and the ground-truth folder with
    [has_depth_masks=True]: what either reading raises is what the
    evaluation raises, and when the evaluation returns both readings have
    returned. Read with [has_depth_masks=True], a folder gives the outcome
    of the same folder without its [*_depth_mask.png] files, with or
    without the flag: these files take no part in the matching, no path
    ending in "_depth_mask.png" is a value of the "mask" dictionary, and no
    name of the form [<name>_depth] is among the examples returned, nor
    among the ground-truth examples that are evaluated. Read without the
    flag, as the prediction folder is, a visible [<name>_depth_mask.png]
    does make [<name>_depth] an example. *)
Theorem ground_truth_depth_masks_excluded
  (fs fs' : filesystem) (pred_folder gt_folder : string) :
  (forall e,
      get_result_directory_file_names fs pred_folder false = Raise e ->
      evaluate fs pred_folder gt_folder = Raise e)
  /\ (forall user_submission_files e,
         get_result_directory_file_names fs pred_folder false
         = Ok user_submission_files ->
         get_result_directory_file_names fs gt_folder true = Raise e ->
         evaluate fs pred_folder gt_folder = Raise e)
  /\ (forall result per_example_results,
         evaluate fs pred_folder gt_folder
         = Ok (result, per_example_results) ->
         exists user_submission_files ground_truth_files,
           get_result_directory_file_names fs pred_folder false
           = Ok user_submission_files
           /\ get_result_directory_file_names fs gt_folder true
              = Ok ground_truth_files
           /\ List.length per_example_results
              = List.length ground_truth_files
           /\ forall name,
                ~ In (name ++ "_depth") (dict_keys ground_truth_files))
  /\ (forall ground_truth_files name,
         get_result_directory_file_names fs gt_folder true
         = Ok ground_truth_files ->
         ~ In (name ++ "_depth") (dict_keys ground_truth_files))
  /\ (forall k f,
         dict_get (result_type_files fs gt_folder true Mask) k = Some f ->
         endswith f "_depth_mask.png" = false)
  /\ (has_magic gt_folder = false ->
      plain_entries fs gt_folder ->
      entries fs' gt_folder = filter no_depth_mask (entries fs gt_folder) ->
      get_result_directory_file_names fs gt_folder true
      = get_result_directory_file_names fs' gt_folder true
      /\ get_result_directory_file_names fs gt_folder true
         = get_result_directory_file_names fs' gt_folder false)
  /\ (has_magic pred_folder = false ->
      plain_entries fs pred_folder ->
      forall name user_submission_files,
        In (name ++ "_depth_mask.png") (entries fs pred_folder) ->
        ishidden (name ++ "_depth_mask.png") = false ->
        get_result_directory_file_names fs pred_folder false
        = Ok user_submission_files ->
        In (name ++ "_depth") (dict_keys user_submission_files)).
Proof.
  assert (K : forall g name,
             get_result_directory_file_names fs gt_folder true = Ok g ->
             ~ In (name ++ "_depth") (dict_keys g)).
  { intros g name R I.
    destruct (get_result_Ok_complete _ _ _ _ R) as [_ C].
    specialize (C _ Mask I).
    now rewrite mask_key_not_depth in C. }
  split; [|split; [|split; [|split; [|split; [|split]]]]].
  - intros e R. unfold evaluate_file_folders. now rewrite R.
  - intros us e U R. unfold evaluate_file_folders. now rewrite U, R.
  - intros result rs. unfold evaluate_file_folders.
    destruct (get_result_directory_file_names fs pred_folder false)
      as [us|]; [|discriminate]. cbn [bind].
    destruct (get_result_directory_file_names fs gt_folder true)
      as [g|] eqn:G; [|discriminate]. cbn [bind].
    destruct (check_user_submission_file_paths g us) as [[]|];
      [|discriminate]. cbn [bind].
    destruct (mapM _ (dict_keys g)) as [rs'|] eqn:P; [|discriminate].
    cbn [bind].
    destruct (average_metrics _ _ _ _ _ rs') as [res|]; [|discriminate].
    cbn [bind]. intros [= <- <-].
    exists us, g. split; [reflexivity|]. split; [reflexivity|]. split.
    + rewrite (mapM_length _ _ _ P). apply length_map.
    + intros name. now apply K.
  - intros g name R. now apply K.
  - intros k f G. now apply mask_entry in G.
  - intros M P E. split; apply get_result_ext; intros t;
      now apply result_type_files_without_depth_masks.
  - intros M P name us I H R.
    destruct (get_result_Ok_complete _ _ _ _ R) as [-> _].
    apply example_names_In. exists Mask.
    apply (rtf_contains fs pred_folder false M P).
    unfold has_matched_file, has_file. change (postfix Mask) with "_mask.png".
    rewrite append_assoc.
    change ("_depth" ++ "_mask.png") with "_depth_mask.png".
    split; [exact I|]. unfold matched. rewrite H. cbn [negb andb].
    rewrite andb_true_r.
    change "_depth_mask.png" with ("_depth" ++ postfix Mask).
    rewrite <- append_assoc. apply endswith_app.
Qed.

End DepthMaskCalls.

(** C5 on the fixture: the ground-truth folder read with the flag gives
    what the folder without its two depth masks gives. *)
Lemma ground_truth_depth_masks_excluded_witness :
  get_result_directory_file_names Fixture.folders "gt" true
  = get_result_directory_file_names
      (fs_of [("gt", filter no_depth_mask gt_listing)]) "gt" true
  /\ get_result_directory_file_names Fixture.folders "gt" true
     = get_result_directory_file_names
         (fs_of [("gt", filter no_depth_mask gt_listing)]) "gt" false.
Proof.
  refine (proj1 (proj2 (proj2 (proj2 (proj2 (proj2
            (ground_truth_depth_masks_excluded _ Fixture.zero
               QArith_base.Qplus Fixture.div_nat _ Fixture.load
               Fixture.eval Fixture.metric_names Fixture.folders
               (fs_of [("gt", filter no_depth_mask gt_listing)])
               "pred" "gt")))))) _ _ _).
  - reflexivity.
  - intros x I. cbv in I.
    repeat (destruct I as [<-|I]; [reflexivity|]). destruct I.
  - reflexivity.
Defined.
